(** * Record uploading tasks of the INSPIRE workflows

    A shallow embedding of [inspirehep/modules/workflows/tasks/upload.py]:
    [store_record], [store_record_inspirehep_api], [send_record_to_hep],
    [create_error], [store_root], [_is_stale_data] and [is_stale_data].

    The tasks mutate a workflow object in place, talk to a record store
    and to a remote HTTP service, and signal failure with exceptions.  They
    are embedded in a state-and-exception monad whose state survives a raised
    exception, as the in-memory mutations of a Python object do. *)

From stdpp Require Import gmap strings list fin_maps pretty.

Set Warnings "-register-all".
Local Open Scope Z_scope.

(** ** Python values *)

(** The JSON-like values that the tasks read from and write to the
    dictionaries [obj.data], [obj.extra_data], the application configuration
    and the bodies of HTTP responses.  Floats and lists are not inspected by
    any of the tasks and are left out. *)
Inductive pyval : Type :=
  | PNone
  | PBool (b : bool)
  | PInt (z : Z)
  | PStr (s : string)
  | PDict (d : gmap string pyval).

(** Python truthiness, as used by [if x:] and [not x]. *)
Definition truthy (v : pyval) : bool :=
  match v with
  | PNone => false
  | PBool b => b
  | PInt z => negb (z =? 0)
  | PStr s => negb (String.eqb s "")
  | PDict d => negb (bool_decide (size d = 0%nat))
  end.

(** [v is None] *)
Definition is_None (v : pyval) : bool :=
  match v with PNone => true | _ => false end.

(** [d.get(k)] and [d.get(k, default)] *)
Definition dict_get (d : gmap string pyval) (k : string) : pyval :=
  default PNone (d !! k).

Definition dict_get_default (d : gmap string pyval) (k : string) (dflt : pyval)
  : pyval :=
  default dflt (d !! k).

(** [k in d] *)
Definition dict_contains (d : gmap string pyval) (k : string) : bool :=
  bool_decide (is_Some (d !! k)).

(** [a == n] for an integer [n]: booleans are integers in Python, every
    other kind of value differs from an integer. *)
Definition py_eq_int (a : pyval) (n : Z) : bool :=
  match a with
  | PInt z => z =? n
  | PBool b => Z.b2z b =? n
  | _ => false
  end.

(** Equality of values is decidable. *)
Global Instance pyval_eq_dec : EqDecision pyval.
Proof.
  refine (fix go (a b : pyval) {struct a} : Decision (a = b) :=
    let _ : EqDecision pyval := @go in
    match a, b with
    | PNone, PNone => left _
    | PBool x, PBool y => cast_if (decide (x = y))
    | PInt x, PInt y => cast_if (decide (x = y))
    | PStr x, PStr y => cast_if (decide (x = y))
    | PDict x, PDict y => cast_if (decide (x = y))
    | _, _ => right _
    end); congruence.
Defined.

(** Booleans read as the integers they are, throughout a value. *)
Fixpoint as_number (v : pyval) : pyval :=
  match v with
  | PBool b => PInt (Z.b2z b)
  | PDict d => PDict (as_number <$> d)
  | _ => v
  end.

(** [a == b] between two values. *)
Definition py_eq (a b : pyval) : bool :=
  bool_decide (as_number a = as_number b).

(** ** Exceptions *)

(** The response object carried by [requests.exceptions.HTTPError]:
    [json_body] is [None] when [response.json()] raises [JSONDecodeError]. *)
Record Response := {
  status_code : Z;
  json_body : option pyval;
  text : string
}.

Inductive exn : Type :=
  | HTTPError (response : Response)
  | BadGatewayError
  | WorkflowsError (message : string)
  | ValueError (message : string)
  | KeyError (key : string)
  | TypeError
  | OtherError (class_name : string).

Definition exn_class (e : exn) : string :=
  match e with
  | HTTPError _ => "HTTPError"
  | BadGatewayError => "BadGatewayError"
  | WorkflowsError _ => "WorkflowsError"
  | ValueError _ => "ValueError"
  | KeyError _ => "KeyError"
  | TypeError => "TypeError"
  | OtherError c => c
  end.

Inductive result (A : Type) : Type :=
  | Ok (a : A)
  | Raise (e : exn).
Arguments Ok {A} a.
Arguments Raise {A} e.

(** [d[k]] on a dictionary *)
Definition getitem (d : gmap string pyval) (k : string) : result pyval :=
  match d !! k with
  | Some v => Ok v
  | None => Raise (KeyError k)
  end.

(** [v[k]] on an arbitrary value: only dictionaries can be subscripted by a
    string key. *)
Definition py_getitem (v : pyval) (k : string) : result pyval :=
  match v with
  | PDict d => getitem d k
  | _ => Raise TypeError
  end.

(** [v - 1] *)
Definition py_pred (v : pyval) : result Z :=
  match v with
  | PInt z => Ok (z - 1)
  | PBool b => Ok (Z.b2z b - 1)
  | _ => Raise TypeError
  end.

(** The conversion [%d] of the [%] operator: a number is required. *)
Definition format_d (v : pyval) : result string :=
  match v with
  | PInt z => Ok (pretty z)
  | PBool b => Ok (pretty (Z.b2z b))
  | _ => Raise TypeError
  end.

Definition dquote : string := String (Ascii.ascii_of_nat 34) "".

(** ** Workflow objects, records and requests *)

(** The workflow object [obj]: the payload [obj.data], the bookkeeping
    dictionary [obj.extra_data], and the lines written through [obj.log]. *)
Record WorkflowObject := {
  data : gmap string pyval;
  extra_data : gmap string pyval;
  log : list string
}.

(** [eng.workflow_definition.data_type] *)
Record Engine := { data_type : string }.

(** An [InspireRecord] held in memory: its identifier ([str(record.id)]), its
    content (the record is a dictionary) and [record.model.version_id]. *)
Record InspireRecord := {
  id : string;
  json : gmap string pyval;
  version_id : Z
}.

(** [record.revision_id] is the version of the model minus one. *)
Definition revision_id (r : InspireRecord) : Z := version_id r - 1.

(** The record [r] after its content has been replaced in place. *)
Definition with_json (r : InspireRecord) (j : gmap string pyval)
  : InspireRecord :=
  {| id := id r; json := j; version_id := version_id r |}.

(** The two calls of the remote record API:
    [post_record_to_hep(pid_type, data=...)] and
    [put_record_to_hep(pid_type, control_number, data=..., headers=...)]. *)
Inductive Request : Type :=
  | Post (pid_type : string) (body : gmap string pyval)
  | Put (pid_type : string) (control_number : pyval)
        (body : gmap string pyval) (headers : gmap string string).

Definition request_headers (r : Request) : gmap string string :=
  match r with
  | Post _ _ => ∅
  | Put _ _ _ h => h
  end.

Definition is_put (r : Request) : bool :=
  match r with Put _ _ _ _ => true | Post _ _ => false end.

(** Modelled from the spec: the model class [WorkflowsRecordSources]
    (inspirehep/modules/workflows/models.py is not part of the sources at
    hand).  The spec gives the layout: a logical table keyed by
    [(recordUuid, source)] with a JSON payload column. *)
Record WorkflowsRecordSources := {
  source : string;
  record_uuid : string;
  root_json : pyval
}.

Definition same_key (a b : WorkflowsRecordSources) : bool :=
  String.eqb (record_uuid a) (record_uuid b) && String.eqb (source a) (source b).

Definition has_key (u s : string) (r : WorkflowsRecordSources) : bool :=
  String.eqb (record_uuid r) u && String.eqb (source r) s.

(** [db.session.merge(row)] followed by a flush: the row with the same
    primary key is overwritten, a row with a new key is inserted. *)
Fixpoint session_merge_rows (row : WorkflowsRecordSources)
    (table : list WorkflowsRecordSources) : list WorkflowsRecordSources :=
  match table with
  | [] => [row]
  | r :: rest =>
      if same_key r row then row :: rest
      else r :: session_merge_rows row rest
  end.

(** Lower-casing of the ASCII letters, the part of [str.lower()] that needs
    no table. *)
Definition lower_ascii (c : Ascii.ascii) : Ascii.ascii :=
  let n := Ascii.nat_of_ascii c in
  if ((65 <=? n) && (n <=? 90))%nat then Ascii.ascii_of_nat (n + 32) else c.

Fixpoint ascii_lower (s : string) : string :=
  match s with
  | EmptyString => EmptyString
  | String c rest => String (lower_ascii c) (ascii_lower rest)
  end.

(** A text made of ASCII characters only. *)
Fixpoint is_ascii_text (s : string) : bool :=
  match s with
  | EmptyString => true
  | String c rest => (Ascii.nat_of_ascii c <? 128)%nat && is_ascii_text rest
  end.

(** ** Collaborators *)

(** The parts of the application that the tasks call and that live outside
    [upload.py]: the record API ([InspireRecord]), the persistence of the
    workflow object ([obj.save()]), the HTTP helpers, the reader of
    [inspire_schemas] and the source vocabulary.  They are kept abstract.
    Record operations act on the database only; the workflow object they are
    handed is read, never written. *)
Class Collaborators := {
  DB : Type;
  (** [InspireRecord.get_record(uuid)] *)
  get_record : pyval -> DB -> result InspireRecord;
  (** [InspireRecord.create(data, id_=None, skip_files=True)] *)
  create : gmap string pyval -> DB -> result InspireRecord * DB;
  (** [record.update(data, files_src_records=[obj])]: the record is changed
      in place, the operation yields its new content *)
  update : InspireRecord -> gmap string pyval -> WorkflowObject -> DB ->
           result (gmap string pyval) * DB;
  (** [record.download_documents_and_figures(src_records=[obj])]: likewise *)
  download_documents_and_figures :
    InspireRecord -> WorkflowObject -> DB -> result (gmap string pyval) * DB;
  (** [record.commit()] *)
  commit : InspireRecord -> DB -> result unit * DB;
  (** [obj.save()] *)
  save : WorkflowObject -> DB -> result unit * DB;
  (** The remote service behind [post_record_to_hep] and
      [put_record_to_hep]: the answer to the [n]-th request issued (counting
      from 0) is either the decoded JSON body or a raised exception,
      [HTTPError response] for an error status. *)
  hep : nat -> Request -> result pyval;
  (** [str(value)] of a decoded JSON value, as interpolated by [format] *)
  py_str : pyval -> string;
  (** [LiteratureReader(root).source] *)
  reader_source : pyval -> string;
  (** [get_source_for_root(source)] *)
  get_source_for_root : string -> string;
  (** [text.lower()] for a text with characters outside ASCII, which Python
      lowers by the Unicode tables *)
  unicode_lower : string -> string
}.

(** [text.lower()]: the ASCII letters of an ASCII text are lowered here, a
    text with other characters is lowered by the tables of Python. *)
Definition lower {C : Collaborators} (s : string) : string :=
  if is_ascii_text s then ascii_lower s else unicode_lower s.

(** ** Delays *)

(** [full_jitter(value)], the jitter that [backoff.on_exception] applies
    when none is given: [random.uniform(0, value)], a number of seconds drawn
    at random between 0 and [value].  The draw itself is not modelled: a
    delay is known by the interval it is drawn from. *)
Inductive Delay : Type :=
  | UniformUpTo (value : Z).

Definition full_jitter (value : Z) : Delay := UniformUpTo value.

(** ** The state-and-exception monad *)

Section Tasks.

Context {C : Collaborators}.

(** [current_app.config] *)
Variable config : gmap string pyval.

(** What the tasks can observe and change: the workflow object, the
    database, the table of source roots, the requests sent to the remote
    service so far and the delays slept by the retry loop. *)
Record State := {
  obj : WorkflowObject;
  db : DB;
  record_sources : list WorkflowsRecordSources;
  requests : list Request;
  sleeps : list Delay
}.

Definition M (A : Type) : Type := State -> result A * State.

Definition ret {A} (a : A) : M A := fun s => (Ok a, s).

Definition raise {A} (e : exn) : M A := fun s => (Raise e, s).

Definition bind {A B} (m : M A) (k : A -> M B) : M B :=
  fun s =>
    match m s with
    | (Ok a, s') => k a s'
    | (Raise e, s') => (Raise e, s')
    end.

Declare Scope task_scope.
Delimit Scope task_scope with task.
Bind Scope task_scope with M.
Notation "x <- c1 ;; c2" := (bind c1 (fun x => c2))
  (at level 100, c1 at next level, c2 at level 200, right associativity)
  : task_scope.
Notation "c1 ;; c2" := (bind c1 (fun _ => c2))
  (at level 100, c2 at level 200, right associativity) : task_scope.
Local Open Scope task_scope.

Definition lift {A} (r : result A) : M A := fun s => (r, s).

Definition get_obj : M WorkflowObject := fun s => (Ok (obj s), s).

Definition set_obj (o : WorkflowObject) (s : State) : State :=
  {| obj := o; db := db s; record_sources := record_sources s;
     requests := requests s; sleeps := sleeps s |}.

Definition set_db (d : DB) (s : State) : State :=
  {| obj := obj s; db := d; record_sources := record_sources s;
     requests := requests s; sleeps := sleeps s |}.

(** [obj.data[k] = v] *)
Definition setitem_data (k : string) (v : pyval) : M unit :=
  fun s =>
    let o := obj s in
    (Ok tt, set_obj {| data := <[k := v]> (data o);
                       extra_data := extra_data o; log := log o |} s).

(** [obj.extra_data[k] = v] *)
Definition setitem_extra_data (k : string) (v : pyval) : M unit :=
  fun s =>
    let o := obj s in
    (Ok tt, set_obj {| data := data o;
                       extra_data := <[k := v]> (extra_data o);
                       log := log o |} s).

(** [obj.log.info(msg)] *)
Definition log_info (msg : string) : M unit :=
  fun s =>
    let o := obj s in
    (Ok tt, set_obj {| data := data o; extra_data := extra_data o;
                       log := log o ++ [msg] |} s).

(** [obj.log.info(msg, arg)] for a message [msg] that holds no conversion:
    the logging module fails to format [msg % (arg,)], reports that on its
    own and writes no line; the caller goes on. *)
Definition log_info_unformatted (msg arg : string) : M unit := ret tt.

(** A database operation that may write. *)
Definition on_db {A} (op : DB -> result A * DB) : M A :=
  fun s => let '(r, d) := op (db s) in (r, set_db d s).

(** A database operation that only reads. *)
Definition read_db {A} (op : DB -> result A) : M A :=
  fun s => (op (db s), s).

(** [with db.session.begin_nested(): body]: a savepoint.  When the body
    raises, the database goes back to the savepoint; the Python objects keep
    their in-memory changes. *)
Definition begin_nested {A} (body : M A) : M A :=
  fun s =>
    match body s with
    | (Ok a, s') => (Ok a, s')
    | (Raise e, s') => (Raise e, set_db (db s) s')
    end.

(** [try: body except requests.exceptions.HTTPError as err: handler(err)] *)
Definition try_except_HTTPError {A} (body : M A) (handler : Response -> M A)
  : M A :=
  fun s =>
    match body s with
    | (Raise (HTTPError response), s') => handler response s'
    | r => r
    end.

(** Issuing a request: it is appended to the requests sent so far and
    answered by the remote service. *)
Definition send_request (r : Request) : M pyval :=
  fun s =>
    (hep (length (requests s)) r,
     {| obj := obj s; db := db s; record_sources := record_sources s;
        requests := requests s ++ [r]; sleeps := sleeps s |}).

Definition post_record_to_hep (pid_type : string) (body : gmap string pyval)
  : M pyval :=
  send_request (Post pid_type body).

Definition put_record_to_hep (pid_type : string) (control_number : pyval)
    (body : gmap string pyval) (headers : gmap string string) : M pyval :=
  send_request (Put pid_type control_number body headers).

(** [time.sleep(seconds)]: the delay is recorded. *)
Definition sleep (seconds : Delay) : M unit :=
  fun s =>
    (Ok tt,
     {| obj := obj s; db := db s; record_sources := record_sources s;
        requests := requests s; sleeps := sleeps s ++ [seconds] |}).

(** ** The retry decorator *)

(** [backoff.expo(base, factor)]: the [n]-th value is [factor * base ** n]. *)
Definition expo (base factor : Z) (n : nat) : Z := factor * base ^ Z.of_nat n.

(** The loop of [backoff.on_exception(wait_gen, exception, max_tries)]: call
    the target; on an exception of the retried classes give up when the
    number of tries has reached [max_tries], and otherwise sleep for the
    jitter of the next value of the wait generator and call again.  Exceptions of other classes
    are not caught.  The Python loop counts [tries] up to [max_tries]; here
    [tries_left] is [max_tries - tries] and [n] indexes the wait generator. *)
Fixpoint retry_loop {A} (wait_gen : nat -> Z) (retried : exn -> bool)
    (tries_left : nat) (n : nat) (target : M A) : M A :=
  fun s =>
    match target s with
    | (Ok a, s') => (Ok a, s')
    | (Raise e, s') =>
        if retried e then
          match tries_left with
          | O => (Raise e, s')
          | S remaining =>
              (sleep (full_jitter (wait_gen n)) ;;
               retry_loop wait_gen retried remaining (S n) target) s'
          end
        else (Raise e, s')
    end.

Definition on_exception {A} (wait_gen : nat -> Z) (retried : exn -> bool)
    (max_tries : nat) (target : M A) : M A :=
  retry_loop wait_gen retried (max_tries - 1) 0 target.

Definition is_BadGatewayError (e : exn) : bool :=
  match e with BadGatewayError => true | _ => false end.

(** ** The tasks *)

(** The decorator [with_debug_logging] writes a debug line before and after
    the task it wraps and is transparent otherwise; the log of the model
    holds the lines that the tasks write themselves. *)

Definition skipping_update_msg : string :=
  "skipping update record, feature flag ``FEATURE_FLAG_ENABLE_MERGER`` is disabled.".

Definition skipping_root_msg : string :=
  "skipping storing source root, feature flag ``FEATURE_FLAG_ENABLE_MERGER`` is disabled.".

(** [create_error(response)] never returns: the model gives the exception
    it raises. *)
Definition create_error (response : Response) : exn :=
  if status_code response =? 502 then BadGatewayError
  else
    let error_msg :=
      match json_body response with
      | Some j => py_str j
      | None => text response
      end in
    WorkflowsError
      ("Error from inspirehep [" +:+ pretty (status_code response) +:+ "]: "
       +:+ error_msg).

Definition send_record_to_hep (pid_type : string) (control_number : pyval)
  : M unit :=
  response <-
    try_except_HTTPError
      (o <- get_obj ;;
       if truthy control_number then
         head_version_id <- lift (getitem (extra_data o) "head_version_id") ;;
         headers <-
           (if truthy head_version_id then
              v <- lift (py_pred head_version_id) ;;
              ret ({[ "If-Match" := dquote +:+ pretty v +:+ dquote ]}
                     : gmap string string)
            else ret ∅) ;;
         put_record_to_hep pid_type control_number (data o) headers
       else
         post_record_to_hep pid_type (data o))
      (fun response => raise (create_error response)) ;;
  metadata <- lift (py_getitem response "metadata") ;;
  cn <- lift (py_getitem metadata "control_number") ;;
  setitem_data "control_number" cn ;;
  metadata <- lift (py_getitem response "metadata") ;;
  cn <- lift (py_getitem metadata "control_number") ;;
  setitem_extra_data "recid" cn ;;
  (if negb (truthy control_number) then
     uuid <- lift (py_getitem response "uuid") ;;
     setitem_extra_data "head_uuid" uuid
   else ret tt) ;;
  begin_nested (o <- get_obj ;; on_db (save o)).

(** The body of [store_record_inspirehep_api], before decoration. *)
Definition store_record_inspirehep_api_body (is_update : pyval)
    (is_authors : bool) : M unit :=
  let pid_type := if is_authors then "aut" else "lit" in
  o <- get_obj ;;
  let send :=
    let control_number := dict_get (data o) "control_number" in
    send_record_to_hep pid_type control_number in
  if truthy is_update then
    if negb is_authors
       && negb (truthy (dict_get_default config "FEATURE_FLAG_ENABLE_MERGER"
                          (PBool false)))
    then log_info skipping_update_msg
    else if negb (dict_contains (data o) "control_number")
    then raise (ValueError "Control number is missing")
    else send
  else send.

(** [@backoff.on_exception(backoff.expo, (BadGatewayError, ), base=4,
    max_tries=5)] *)
Definition store_record_inspirehep_api (is_update : pyval) (is_authors : bool)
  : M unit :=
  on_exception (expo 4 1) is_BadGatewayError 5
    (store_record_inspirehep_api_body is_update is_authors).

Definition store_record (eng : Engine) : M unit :=
  o <- get_obj ;;
  let is_update := dict_get (extra_data o) "is-update" in
  let is_authors := String.eqb (data_type eng) "authors" in
  if negb (truthy (dict_get config "FEATURE_FLAG_ENABLE_REST_RECORD_MANAGEMENT"))
  then
    begin_nested
      (if truthy is_update then
         if negb is_authors
            && negb (truthy (dict_get_default config
                               "FEATURE_FLAG_ENABLE_MERGER" (PBool false)))
         then log_info skipping_update_msg
         else
           head_uuid <- lift (getitem (extra_data o) "head_uuid") ;;
           record <- read_db (get_record head_uuid) ;;
           cn <- lift (getitem (json record) "control_number") ;;
           setitem_extra_data "recid" cn ;;
           cn <- lift (getitem (json record) "control_number") ;;
           setitem_data "control_number" cn ;;
           let record := with_json record ∅ in
           o <- get_obj ;;
           content <- on_db (update record (data o) o) ;;
           let record := with_json record content in
           on_db (commit record) ;;
           o <- get_obj ;;
           on_db (save o)
       else
         record <- on_db (create (data o)) ;;
         content <- on_db (download_documents_and_figures record o) ;;
         let record := with_json record content in
         cn <- lift (getitem (json record) "control_number") ;;
         setitem_data "control_number" cn ;;
         cn <- lift (getitem (json record) "control_number") ;;
         setitem_extra_data "recid" cn ;;
         setitem_extra_data "head_uuid" (PStr (id record)) ;;
         on_db (commit record) ;;
         o <- get_obj ;;
         on_db (save o))
  else store_record_inspirehep_api is_update is_authors.

(** [db.session.merge(root_record)]; [db.session.commit()].  The column
    [record_uuid] holds an identifier: a [head_uuid] that is not a string is
    refused by the database layer. *)
Definition session_merge (source_label : string) (head_uuid root : pyval)
  : M unit :=
  match head_uuid with
  | PStr u =>
      fun s =>
        let row := {| source := source_label; record_uuid := u;
                      root_json := root |} in
        (Ok tt,
         {| obj := obj s; db := db s;
            record_sources := session_merge_rows row (record_sources s);
            requests := requests s; sleeps := sleeps s |})
  | _ => raise (OtherError "StatementError")
  end.

Definition store_root : M unit :=
  if negb (truthy (dict_get_default config "FEATURE_FLAG_ENABLE_MERGER"
                     (PBool false)))
  then log_info skipping_root_msg
  else
    o <- get_obj ;;
    root <- lift (getitem (extra_data o) "merger_root") ;;
    head_uuid <- lift (getitem (extra_data o) "head_uuid") ;;
    let source := lower (reader_source root) in
    if negb (truthy (PStr source)) then ret tt
    else session_merge (get_source_for_root source) head_uuid root.

Definition _is_stale_data : M bool :=
  o <- get_obj ;;
  let is_update := dict_get (extra_data o) "is-update" in
  let head_version_id := dict_get (extra_data o) "head_version_id" in
  if negb (truthy is_update) || is_None head_version_id then ret false
  else
    let head_uuid := dict_get (extra_data o) "head_uuid" in
    record <- read_db (get_record head_uuid) ;;
    if negb (py_eq_int head_version_id (version_id record)) then
      expecting <- lift (format_d head_version_id) ;;
      let found := pretty (revision_id record) in
      log_info_unformatted "Working with stale data:"
        ("Expecting version " +:+ expecting +:+ " but found " +:+ found) ;;
      ret true
    else ret false.

Definition is_stale_data (eng : Engine) : M bool := _is_stale_data.

(** [ensure_valid_schema(data)] of [inspirehep.utils.schema]: it resolves
    [data['$schema']] in place or raises; the model gives the new content of
    the dictionary. *)
Variable ensure_valid_schema : gmap string pyval -> result (gmap string pyval).

(** [obj.log.debug(msg)]: the log does not keep the level of a line. *)
Definition log_debug (msg : string) : M unit := log_info msg.

(** The payload after a collaborator has changed it in place. *)
Definition replace_data (d : gmap string pyval) : M unit :=
  fun s =>
    let o := obj s in
    (Ok tt, set_obj {| data := d; extra_data := extra_data o;
                       log := log o |} s).

(** [obj.data_type or eng.workflow_definition.data_type], where
    [obj.data_type] is [None] or a string. *)
Definition effective_data_type (obj_data_type : option string) (eng : Engine)
  : string :=
  match obj_data_type with
  | Some t => if truthy (PStr t) then t else data_type eng
  | None => data_type eng
  end.

(** [set_schema(obj, eng)].  The attribute [obj.data_type], which the record
    [WorkflowObject] does not carry, is passed beside the state. *)
Definition set_schema (obj_data_type : option string) (eng : Engine)
  : M unit :=
  o <- get_obj ;;
  (if negb (dict_contains (data o) "$schema") then
     setitem_data "$schema"
       (PStr (effective_data_type obj_data_type eng +:+ ".json")) ;;
     o <- get_obj ;;
     schema <- lift (getitem (data o) "$schema") ;;
     log_debug ("Schema set to " +:+ py_str schema)
   else log_debug "Schema already there") ;;
  o <- get_obj ;;
  old_schema <- lift (getitem (data o) "$schema") ;;
  valid <- lift (ensure_valid_schema (data o)) ;;
  replace_data valid ;;
  o <- get_obj ;;
  schema <- lift (getitem (data o) "$schema") ;;
  (if negb (py_eq schema old_schema) then
     o <- get_obj ;;
     schema <- lift (getitem (data o) "$schema") ;;
     log_debug ("Schema changed to " +:+ py_str schema +:+ " from "
                +:+ py_str old_schema)
   else log_debug "Schema already is url") ;;
  o <- get_obj ;;
  schema <- lift (getitem (data o) "$schema") ;;
  log_debug ("Final schema " +:+ py_str schema).

End Tasks.

Arguments State C : clear implicits.
Arguments M C A : clear implicits.

(** ** Notions used to state the properties *)

(** The header of a replace call whose [head_version_id] is the integer
    [n]. *)
Definition if_match (n : Z) : gmap string string :=
  {[ "If-Match" := dquote +:+ pretty (n - 1) +:+ dquote ]}.

(** [FEATURE_FLAG_ENABLE_MERGER] as the tasks read it. *)
Definition merger_enabled (config : gmap string pyval) : bool :=
  truthy (dict_get_default config "FEATURE_FLAG_ENABLE_MERGER" (PBool false)).

(** [FEATURE_FLAG_ENABLE_REST_RECORD_MANAGEMENT] as [store_record] reads
    it. *)
Definition rest_enabled (config : gmap string pyval) : bool :=
  truthy (dict_get config "FEATURE_FLAG_ENABLE_REST_RECORD_MANAGEMENT").

(** The request that one attempt of [store_record_inspirehep_api] sends for
    a workflow object whose [head_version_id], if it is needed, is an integer
    or [None]; [None] when the attempt stops before reaching the remote
    service or when [head_version_id] is of another kind. *)
Definition expected_request (config : gmap string pyval) (o : WorkflowObject)
    (is_update : pyval) (is_authors : bool) : option Request :=
  let pid_type := if is_authors then "aut" else "lit" in
  let control_number := dict_get (data o) "control_number" in
  if truthy is_update
     && ((negb is_authors && negb (merger_enabled config))
         || negb (dict_contains (data o) "control_number"))
  then None
  else if truthy control_number then
    match extra_data o !! "head_version_id" with
    | Some (PInt n) =>
        Some (Put pid_type control_number (data o)
                (if n =? 0 then ∅ else if_match n))
    | Some PNone => Some (Put pid_type control_number (data o) ∅)
    | _ => None
    end
  else Some (Post pid_type (data o)).

(** The pair of identity fields that the storage operations stamp. *)
Definition control_number_of (o : WorkflowObject) : option pyval :=
  data o !! "control_number".

Definition recid_of (o : WorkflowObject) : option pyval :=
  extra_data o !! "recid".

(** Between two moments of a workflow object: the two identity fields were
    left alone, or both were written with one value. *)
Definition stamped_or_untouched (o o' : WorkflowObject) : Prop :=
  (control_number_of o' = control_number_of o /\ recid_of o' = recid_of o)
  \/ (exists v, control_number_of o' = Some v /\ recid_of o' = Some v).

(** The primary key of the table of source roots is unique. *)
Definition unique_keys (table : list WorkflowsRecordSources) : Prop :=
  NoDup (map (fun r => (record_uuid r, source r)) table).

(** The state after a request has been issued, and after a delay. *)
Definition sent {C : Collaborators} (r : Request) (s : State C) : State C :=
  {| obj := obj s; db := db s; record_sources := record_sources s;
     requests := requests s ++ [r]; sleeps := sleeps s |}.

Definition slept {C : Collaborators} (seconds : Delay) (s : State C)
  : State C :=
  {| obj := obj s; db := db s; record_sources := record_sources s;
     requests := requests s; sleeps := sleeps s ++ [seconds] |}.

(** The state in which the attempt number [i] (counting from 0) of a retried
    target starts, when each attempt before it has been followed by a delay;
    [n] indexes the wait generator at the first of them. *)
Fixpoint before_attempt {C : Collaborators} {A : Type} (wait_gen : nat -> Z)
    (target : M C A) (n i : nat) (s : State C) : State C :=
  match i with
  | O => s
  | S i' =>
      before_attempt wait_gen target (S n) i'
        (slept (full_jitter (wait_gen n)) (snd (target s)))
  end.

(** The state reached by a skipped task: one more line in the log. *)
Definition logged {C : Collaborators} (msg : string) (s : State C) : State C :=
  set_obj {| data := data (obj s); extra_data := extra_data (obj s);
             log := log (obj s) ++ [msg] |} s.

(** What [send_record_to_hep] does once the response has arrived: the part
    of the function after its [try] statement. *)
Definition stamp_response {C : Collaborators} (control_number response : pyval)
  : M C unit :=
  bind (lift (py_getitem response "metadata")) (fun metadata =>
  bind (lift (py_getitem metadata "control_number")) (fun cn =>
  bind (setitem_data "control_number" cn) (fun _ =>
  bind (lift (py_getitem response "metadata")) (fun metadata =>
  bind (lift (py_getitem metadata "control_number")) (fun cn =>
  bind (setitem_extra_data "recid" cn) (fun _ =>
  bind (if negb (truthy control_number) then
          bind (lift (py_getitem response "uuid")) (fun uuid =>
          setitem_extra_data "head_uuid" uuid)
        else ret tt) (fun _ =>
  begin_nested (bind get_obj (fun o => on_db (save o)))))))))).

(** The outcome of [send_record_to_hep] once it has built the request [r]:
    an error status is translated by [create_error], any other exception
    passes through, a response is stamped on the workflow object. *)
Definition answered {C : Collaborators} (control_number : pyval) (r : Request)
    (s : State C) : result unit * State C :=
  match hep (length (requests s)) r with
  | Ok response => stamp_response control_number response (sent r s)
  | Raise (HTTPError response) => (Raise (create_error response), sent r s)
  | Raise e => (Raise e, sent r s)
  end.

(** Between two moments of a workflow object: in the payload only
    [control_number] may differ, in the extra data only [recid] and
    [head_uuid]. *)
Definition only_identity_written (o o' : WorkflowObject) : Prop :=
  (forall k : string, k <> "control_number" -> data o' !! k = data o !! k)
  /\ (forall k : string, k <> "recid" -> k <> "head_uuid" ->
        extra_data o' !! k = extra_data o !! k).

(** What the storage tasks respect in the state: the workflow object
    changes in its identity fields only, its log is only extended, and the
    table of source roots stays as it is. *)
Definition storage_frame {C : Collaborators} (s s' : State C) : Prop :=
  only_identity_written (obj s) (obj s')
  /\ log (obj s) `prefix_of` log (obj s')
  /\ record_sources s' = record_sources s.

(** The state with another table of source roots. *)
Definition with_record_sources {C : Collaborators}
    (table : list WorkflowsRecordSources) (s : State C) : State C :=
  {| obj := obj s; db := db s; record_sources := table;
     requests := requests s; sleeps := sleeps s |}.

(** The row that [store_root] builds for a root and a head. *)
Definition root_row {C : Collaborators} (root : pyval) (u : string)
  : WorkflowsRecordSources :=
  {| source := get_source_for_root (lower (reader_source root));
     record_uuid := u; root_json := root |}.

(** The table that [store_root] leaves, as a function of the configuration,
    the extra data and the table it finds. *)
Definition root_table_after {C : Collaborators} (config : gmap string pyval)
    (extra : gmap string pyval) (table : list WorkflowsRecordSources)
  : list WorkflowsRecordSources :=
  if merger_enabled config then
    match extra !! "merger_root", extra !! "head_uuid" with
    | Some root, Some (PStr u) =>
        if String.eqb (lower (reader_source root)) "" then table
        else session_merge_rows (root_row root u) table
    | _, _ => table
    end
  else table.

(** The payload and the extra data are the same. *)
Definition same_content (o o' : WorkflowObject) : Prop :=
  data o' = data o /\ extra_data o' = extra_data o.

(** The payload handed to the schema resolver: the payload itself, with the
    default schema when it declares none. *)
Definition with_default_schema (obj_data_type : option string) (eng : Engine)
    (d : gmap string pyval) : gmap string pyval :=
  match d !! "$schema" with
  | Some _ => d
  | None =>
      <["$schema" := PStr (effective_data_type obj_data_type eng
                           +:+ ".json")]> d
  end.

(** ** A concrete bench *)

(** An in-memory instance of the collaborators, used to run the tasks on
    examples: records by identifier, the workflow object last saved, and a
    remote service that answers the requests in the order of a script. *)
Module Bench.

Record Store := {
  records : gmap string InspireRecord;
  saved : option WorkflowObject
}.

Definition bench_get_record (uuid : pyval) (d : Store) : result InspireRecord :=
  match uuid with
  | PStr u =>
      match records d !! u with
      | Some r => Ok r
      | None => Raise (OtherError "NoResultFound")
      end
  | _ => Raise (OtherError "NoResultFound")
  end.

Definition bench_create (content : gmap string pyval) (d : Store)
  : result InspireRecord * Store :=
  let cn := Z.of_nat (size (records d)) + 1 in
  let r := {| id := "uuid-" +:+ pretty cn;
              json := <["control_number" := PInt cn]> content;
              version_id := 1 |} in
  (Ok r, {| records := <[id r := r]> (records d); saved := saved d |}).

Definition bench_update (r : InspireRecord) (content : gmap string pyval)
    (o : WorkflowObject) (d : Store) : result (gmap string pyval) * Store :=
  (Ok (content ∪ json r), d).

Definition bench_download (r : InspireRecord) (o : WorkflowObject) (d : Store)
  : result (gmap string pyval) * Store :=
  (Ok (json r), d).

Definition bench_commit (r : InspireRecord) (d : Store) : result unit * Store :=
  (Ok tt,
   {| records := <[id r := {| id := id r; json := json r;
                              version_id := version_id r + 1 |}]> (records d);
      saved := saved d |}).

Definition bench_save (o : WorkflowObject) (d : Store) : result unit * Store :=
  (Ok tt, {| records := records d; saved := Some o |}).

Definition bench_hep (script : list (result pyval)) (n : nat) (r : Request)
  : result pyval :=
  nth n script (Raise (OtherError "ConnectionError")).

Definition bench_py_str (v : pyval) : string :=
  match v with
  | PNone => "None"
  | PBool b => if b then "True" else "False"
  | PInt z => pretty z
  | PStr s => s
  | PDict _ => "{...}"
  end.

(** [acquisition_source.source] of the root, the empty string when absent. *)
Definition bench_reader_source (root : pyval) : string :=
  match root with
  | PDict d =>
      match d !! "acquisition_source" with
      | Some (PDict a) =>
          match a !! "source" with
          | Some (PStr s) => s
          | _ => ""
          end
      | _ => ""
      end
  | _ => ""
  end.

Definition bench_get_source_for_root (s : string) : string :=
  if String.eqb s "arxiv" then "arxiv" else "publisher".

Definition collaborators (script : list (result pyval)) : Collaborators :=
  {| DB := Store;
     get_record := bench_get_record;
     create := bench_create;
     update := bench_update;
     download_documents_and_figures := bench_download;
     commit := bench_commit;
     save := bench_save;
     hep := bench_hep script;
     py_str := bench_py_str;
     reader_source := bench_reader_source;
     get_source_for_root := bench_get_source_for_root;
     unicode_lower := ascii_lower |}.

Definition empty_store : Store := {| records := ∅; saved := None |}.

Definition initial (script : list (result pyval)) (o : WorkflowObject)
    (d : Store) : State (collaborators script) :=
  @Build_State (collaborators script) o d [] [] [].

(** A literature record already stored as version 4. *)
Definition head : InspireRecord :=
  {| id := "head-1";
     json := {[ "control_number" := PInt 1234 ]};
     version_id := 4 |}.

Definition store_with_head : Store :=
  {| records := {[ "head-1" := head ]}; saved := None |}.

(** An update workflow for that record, which it saw at version 3. *)
Definition update_obj : WorkflowObject :=
  {| data := {[ "control_number" := PInt 1234; "titles" := PStr "A title" ]};
     extra_data := {[ "is-update" := PBool true;
                      "head_uuid" := PStr "head-1";
                      "head_version_id" := PInt 3 ]};
     log := [] |}.

(** A workflow for a new record. *)
Definition new_obj : WorkflowObject :=
  {| data := {[ "titles" := PStr "A title" ]};
     extra_data := {[ "is-update" := PBool false ]};
     log := [] |}.

Definition literature : Engine := {| data_type := "hep" |}.

Definition bad_gateway_response : Response :=
  {| status_code := 502; json_body := None; text := "Bad Gateway" |}.

Definition bad_gateway : result pyval := Raise (HTTPError bad_gateway_response).

Definition precondition_failed_response : Response :=
  {| status_code := 412; json_body := None; text := "Precondition Failed" |}.

Definition precondition_failed : result pyval :=
  Raise (HTTPError precondition_failed_response).

Definition created_body : pyval :=
  PDict {[ "metadata" := PDict {[ "control_number" := PInt 77 ]};
           "uuid" := PStr "new-uuid" ]}.

Definition created : result pyval := Ok created_body.

Definition replaced_body : pyval :=
  PDict {[ "metadata" := PDict {[ "control_number" := PInt 1234 ]} ]}.

Definition replaced : result pyval := Ok replaced_body.

(** The request of the update workflow above. *)
Definition replace_request : Request :=
  Put "lit" (PInt 1234) (data update_obj) (if_match 3).

(** The same update workflow with other recorded head versions. *)
Definition with_head_version (v : pyval) : WorkflowObject :=
  {| data := data update_obj;
     extra_data := <["head_version_id" := v]> (extra_data update_obj);
     log := [] |}.

(** Two roots from one publisher, for one head record. *)
Definition root_of (title : string) : pyval :=
  PDict {[ "acquisition_source" := PDict {[ "source" := PStr "Elsevier" ]};
           "titles" := PStr title ]}.

(** A table that already holds a preprint root and a publisher root for
    the head record. *)
Definition stored_roots : list WorkflowsRecordSources :=
  [ {| source := "arxiv"; record_uuid := "head-1";
       root_json := PDict {[ "titles" := PStr "Preprint" ]} |};
    {| source := "publisher"; record_uuid := "head-1";
       root_json := PDict {[ "titles" := PStr "Old" ]} |} ].

Definition with_stored_roots (o : WorkflowObject) (d : Store)
  : State (collaborators []) :=
  @Build_State (collaborators []) o d stored_roots [] [].

Definition with_root (root : pyval) : WorkflowObject :=
  {| data := data update_obj;
     extra_data := <["merger_root" := root]> (extra_data update_obj);
     log := [] |}.

Definition rest_config : gmap string pyval :=
  {[ "FEATURE_FLAG_ENABLE_REST_RECORD_MANAGEMENT" := PBool true;
     "FEATURE_FLAG_ENABLE_MERGER" := PBool true ]}.

Definition local_config : gmap string pyval :=
  {[ "FEATURE_FLAG_ENABLE_MERGER" := PBool true ]}.

(** The two strategies with the merger disabled. *)
Definition rest_config_without_merger : gmap string pyval :=
  {[ "FEATURE_FLAG_ENABLE_REST_RECORD_MANAGEMENT" := PBool true ]}.

Definition local_config_without_merger : gmap string pyval := ∅.

(** The bench with a database that refuses to save workflow objects. *)
Definition refuse_save (o : WorkflowObject) (d : Store) : result unit * Store :=
  (Raise (OtherError "IntegrityError"), d).

Definition collaborators_refusing_save (script : list (result pyval))
  : Collaborators :=
  {| DB := Store;
     get_record := bench_get_record;
     create := bench_create;
     update := bench_update;
     download_documents_and_figures := bench_download;
     commit := bench_commit;
     save := refuse_save;
     hep := bench_hep script;
     py_str := bench_py_str;
     reader_source := bench_reader_source;
     get_source_for_root := bench_get_source_for_root;
     unicode_lower := ascii_lower |}.

Definition initial_refusing_save (script : list (result pyval))
    (o : WorkflowObject) (d : Store)
  : State (collaborators_refusing_save script) :=
  @Build_State (collaborators_refusing_save script) o d [] [] [].

(** A resolver of schema names: a bare name is turned into its URL, a URL is
    kept, anything else is refused. *)
Definition schema_url : string :=
  "https://labs.inspirehep.net/schemas/records/".

Definition bench_ensure_valid_schema (d : gmap string pyval)
  : result (gmap string pyval) :=
  match d !! "$schema" with
  | Some (PStr name) =>
      if String.prefix schema_url name then Ok d
      else if String.eqb name "hep.json" || String.eqb name "authors.json"
      then Ok (<["$schema" := PStr (schema_url +:+ name)]> d)
      else Raise (OtherError "SchemaNotFound")
  | _ => Raise (OtherError "SchemaKeyNotFound")
  end.

(** An update workflow for authors. *)
Definition authors : Engine := {| data_type := "authors" |}.

(** A response to a creation that carries no [uuid]. *)
Definition created_without_uuid : pyval :=
  PDict {[ "metadata" := PDict {[ "control_number" := PInt 77 ]} ]}.

(** A root without acquisition source. *)
Definition root_without_source : pyval :=
  PDict {[ "titles" := PStr "Anonymous" ]}.

(** An update workflow that has lost the bookkeeping of its head. *)
Definition headless_obj : WorkflowObject :=
  {| data := data update_obj;
     extra_data := {[ "is-update" := PBool true ]};
     log := [] |}.

(** A workflow for a new record that carries the root it came from. *)
Definition new_obj_with_root : WorkflowObject :=
  {| data := data new_obj;
     extra_data := <["merger_root" := root_of "First"]> (extra_data new_obj);
     log := [] |}.

(** A workflow with a root and no head. *)
Definition rootful_headless_obj : WorkflowObject :=
  {| data := data new_obj;
     extra_data := {[ "merger_root" := root_of "First" ]};
     log := [] |}.

(** A workflow definition whose data type has no schema. *)
Definition conferences : Engine := {| data_type := "conferences" |}.

End Bench.

(** ** Running the tasks on examples *)

Example lower_Elsevier :
  lower (C := Bench.collaborators []) "Elsevier" = "elsevier".
Proof. reflexivity. Qed.

Example create_error_502 :
  create_error (C := Bench.collaborators []) Bench.bad_gateway_response
  = BadGatewayError.
Proof. reflexivity. Qed.

Example create_error_412 :
  create_error (C := Bench.collaborators []) Bench.precondition_failed_response
  = WorkflowsError "Error from inspirehep [412]: Precondition Failed".
Proof. vm_compute. reflexivity. Qed.

Example five_bad_gateways_five_requests :
  let run :=
    store_record Bench.rest_config Bench.literature
      (Bench.initial
         [Bench.bad_gateway; Bench.bad_gateway; Bench.bad_gateway;
          Bench.bad_gateway; Bench.bad_gateway; Bench.replaced]
         Bench.update_obj Bench.store_with_head) in
  fst run = Raise BadGatewayError
  /\ length (requests (snd run)) = 5%nat
  /\ sleeps (snd run)
     = [full_jitter 1; full_jitter 4; full_jitter 16; full_jitter 64].
Proof. vm_compute. repeat split; reflexivity. Qed.

Example stale_when_head_moved_on :
  fst (_is_stale_data
         (Bench.initial [] Bench.update_obj Bench.store_with_head))
  = Ok true.
Proof. vm_compute. reflexivity. Qed.

Example replace_sends_previous_version :
  requests (snd (send_record_to_hep "lit" (PInt 1234)
                   (Bench.initial [Bench.replaced] Bench.update_obj
                      Bench.store_with_head)))
  = [Put "lit" (PInt 1234) (data Bench.update_obj) (if_match 3)].
Proof. vm_compute. reflexivity. Qed.

(** * Properties *)

Section Properties.

Context {C : Collaborators}.
Variable config : gmap string pyval.

Implicit Types (s : State C) (o : WorkflowObject) (e : exn).

(** ** Running the monad *)

Lemma String_eqb_false (a b : string) : a <> b -> String.eqb a b = false.
Proof. intros H. apply String.eqb_neq. exact H. Qed.

Ltac run_task :=
  unfold try_except_HTTPError, begin_nested, bind,
    get_obj, lift, ret, raise, put_record_to_hep, post_record_to_hep,
    send_request, setitem_data, setitem_extra_data, on_db, read_db, log_info,
    set_obj, set_db; simpl.

(** Case analysis on the innermost scrutinee of the goal. *)
Ltac split_match :=
  match goal with
  | |- context [match ?x with _ => _ end] =>
      lazymatch x with
      | context [match _ with _ => _ end] => fail
      | _ => destruct x eqn:?; simpl
      end
  end.

(** ** One call of [send_record_to_hep] *)

Lemma send_record_to_hep_stamp (pid_type : string) (control_number : pyval) :
  send_record_to_hep pid_type control_number
  = bind
      (try_except_HTTPError
         (bind get_obj (fun o =>
          if truthy control_number then
            bind (lift (getitem (extra_data o) "head_version_id"))
              (fun head_version_id =>
            bind (if truthy head_version_id then
                    bind (lift (py_pred head_version_id)) (fun v =>
                    ret ({[ "If-Match" := dquote +:+ pretty v +:+ dquote ]}
                           : gmap string string))
                  else ret ∅) (fun headers =>
            put_record_to_hep pid_type control_number (data o) headers))
          else post_record_to_hep pid_type (data o)))
         (fun response => raise (create_error response)))
      (stamp_response control_number).
Proof. reflexivity. Qed.

Lemma answered_unfold (control_number : pyval) (r : Request) s :
  (let (res, s') :=
     match hep (length (requests s)) r with
     | Raise (HTTPError response) =>
         (@Raise pyval (create_error response), sent r s)
     | res => (res, sent r s)
     end in
   match res with
   | Ok a => stamp_response control_number a s'
   | Raise e => (Raise e, s')
   end) = answered control_number r s.
Proof.
  unfold answered. destruct (hep _ _) as [a|[]]; reflexivity.
Qed.

Lemma send_create (pid_type : string) (control_number : pyval) s :
  truthy control_number = false ->
  send_record_to_hep pid_type control_number s
  = answered control_number (Post pid_type (data (obj s))) s.
Proof.
  intros Hcn. rewrite send_record_to_hep_stamp, <- answered_unfold.
  run_task. rewrite Hcn. reflexivity.
Qed.

Lemma send_replace_falsy (pid_type : string) (control_number hv : pyval) s :
  truthy control_number = true ->
  extra_data (obj s) !! "head_version_id" = Some hv ->
  truthy hv = false ->
  send_record_to_hep pid_type control_number s
  = answered control_number
      (Put pid_type control_number (data (obj s)) ∅) s.
Proof.
  intros Hcn Hhv Hfalsy. rewrite send_record_to_hep_stamp, <- answered_unfold.
  run_task. unfold getitem. rewrite Hcn, Hhv. simpl. rewrite Hfalsy.
  reflexivity.
Qed.

Lemma send_replace_truthy (pid_type : string) (control_number hv : pyval)
    (v : Z) s :
  truthy control_number = true ->
  extra_data (obj s) !! "head_version_id" = Some hv ->
  truthy hv = true ->
  py_pred hv = Ok v ->
  send_record_to_hep pid_type control_number s
  = answered control_number
      (Put pid_type control_number (data (obj s))
         {[ "If-Match" := dquote +:+ pretty v +:+ dquote ]}) s.
Proof.
  intros Hcn Hhv Htruthy Hpred.
  rewrite send_record_to_hep_stamp, <- answered_unfold.
  run_task. unfold getitem. rewrite Hcn, Hhv. simpl. rewrite Htruthy, Hpred.
  reflexivity.
Qed.

(** A call of [send_record_to_hep] either builds a request, or raises
    before it reaches the remote service and leaves the state as it was. *)
Lemma send_record_to_hep_cases (pid_type : string) (control_number : pyval) s :
  (exists r, send_record_to_hep pid_type control_number s
             = answered control_number r s)
  \/ (exists e, send_record_to_hep pid_type control_number s = (Raise e, s)).
Proof.
  destruct (truthy control_number) eqn:Hcn.
  - destruct (extra_data (obj s) !! "head_version_id") as [hv|] eqn:Hhv.
    + destruct (truthy hv) eqn:Ht.
      * destruct (py_pred hv) as [v|e] eqn:Hp.
        -- left. eexists. apply (send_replace_truthy _ _ hv v); assumption.
        -- right. exists TypeError.
           assert (e = TypeError) as ->
             by (destruct hv; simpl in Hp; congruence).
           rewrite send_record_to_hep_stamp. run_task.
           unfold getitem. rewrite Hcn, Hhv. simpl. rewrite Ht, Hp.
           reflexivity.
      * left. eexists. apply (send_replace_falsy _ _ hv); assumption.
    + right. exists (KeyError "head_version_id").
      rewrite send_record_to_hep_stamp. run_task. unfold getitem.
      rewrite Hcn, Hhv. reflexivity.
  - left. eexists. apply send_create. assumption.
Qed.

(** Stamping the response leaves the requests, the delays and the table of
    source roots alone. *)
Lemma stamp_response_frame (control_number response : pyval) s :
  let s' := snd (stamp_response control_number response s) in
  requests s' = requests s /\ sleeps s' = sleeps s
  /\ record_sources s' = record_sources s.
Proof.
  unfold stamp_response. run_task.
  repeat split_match; auto.
Qed.

Lemma answered_requests (control_number : pyval) (r : Request) s :
  requests (snd (answered control_number r s)) = requests s ++ [r].
Proof.
  unfold answered.
  destruct (hep _ _) as [a|[]]; try reflexivity.
  destruct (stamp_response_frame control_number a (sent r s)) as [H _].
  exact H.
Qed.


(** ** The retry loop *)

Lemma retry_loop_Ok {A} (w : nat -> Z) (retried : exn -> bool) (k n : nat)
    (target : M C A) s a s' :
  target s = (Ok a, s') ->
  retry_loop w retried k n target s = (Ok a, s').
Proof. intros H. destruct k; simpl; rewrite H; reflexivity. Qed.

Lemma retry_loop_not_retried {A} (w : nat -> Z) (retried : exn -> bool)
    (k n : nat) (target : M C A) s e s' :
  target s = (Raise e, s') ->
  retried e = false ->
  retry_loop w retried k n target s = (Raise e, s').
Proof. intros H He. destruct k; simpl; rewrite H, He; reflexivity. Qed.

Lemma retry_loop_give_up {A} (w : nat -> Z) (retried : exn -> bool)
    (n : nat) (target : M C A) s e s' :
  target s = (Raise e, s') ->
  retry_loop w retried 0 n target s = (Raise e, s').
Proof. intros H. simpl. rewrite H. destruct (retried e); reflexivity. Qed.

Lemma retry_loop_again {A} (w : nat -> Z) (retried : exn -> bool)
    (k n : nat) (target : M C A) s e s' :
  target s = (Raise e, s') ->
  retried e = true ->
  retry_loop w retried (S k) n target s
  = retry_loop w retried k (S n) target (slept (full_jitter (w n)) s').
Proof. intros H He. simpl. rewrite H, He. reflexivity. Qed.

(** One attempt of [store_record_inspirehep_api]. *)
Lemma body_skip (is_update : pyval) s :
  truthy is_update = true ->
  merger_enabled config = false ->
  store_record_inspirehep_api_body config is_update false s
  = (Ok tt, logged skipping_update_msg s).
Proof.
  intros Hupd Hmerger. unfold merger_enabled in Hmerger.
  unfold store_record_inspirehep_api_body, bind, get_obj.
  rewrite Hupd, Hmerger. reflexivity.
Qed.

Lemma body_missing_control_number (is_update : pyval) (is_authors : bool) s :
  truthy is_update = true ->
  is_authors = true \/ merger_enabled config = true ->
  data (obj s) !! "control_number" = None ->
  store_record_inspirehep_api_body config is_update is_authors s
  = (Raise (ValueError "Control number is missing"), s).
Proof.
  intros Hupd Hgate Hcn. unfold merger_enabled in Hgate.
  unfold store_record_inspirehep_api_body, bind, get_obj.
  rewrite Hupd.
  assert (negb is_authors
          && negb (truthy (dict_get_default config
                             "FEATURE_FLAG_ENABLE_MERGER" (PBool false)))
          = false) as ->.
  { destruct Hgate as [-> | ->]; [reflexivity|]. apply andb_false_r. }
  unfold dict_contains. rewrite Hcn.
  rewrite bool_decide_eq_false_2 by (intros [? ?]; discriminate).
  reflexivity.
Qed.

Lemma store_record_rest (eng : Engine) s :
  rest_enabled config = true ->
  store_record config eng s
  = store_record_inspirehep_api config
      (dict_get (extra_data (obj s)) "is-update")
      (String.eqb (data_type eng) "authors") s.
Proof.
  intros Hrest. unfold rest_enabled in Hrest.
  unfold store_record, bind, get_obj. rewrite Hrest. reflexivity.
Qed.

(** ** The skipped update *)

(** C7. An update workflow that is not about authors, with the merger
    feature flag disabled: [store_record] returns normally under either
    storage strategy; the payload, the extra data, the database (hence
    every canonical record), the table of source roots and the requests
    sent are those of before; only the skip is logged. *)
Theorem store_record_skips_update_without_merger (eng : Engine) s :
  truthy (dict_get (extra_data (obj s)) "is-update") = true ->
  data_type eng <> "authors" ->
  merger_enabled config = false ->
  store_record config eng s = (Ok tt, logged skipping_update_msg s).
Proof.
  intros Hupd Haut Hmerger.
  apply String_eqb_false in Haut.
  destruct (rest_enabled config) eqn:Hrest.
  - rewrite store_record_rest by assumption. rewrite Haut.
    apply retry_loop_Ok, body_skip; assumption.
  - unfold rest_enabled in Hrest. unfold merger_enabled in Hmerger.
    unfold store_record, bind, get_obj. rewrite Hrest. simpl.
    unfold begin_nested. rewrite Hupd, Haut, Hmerger. reflexivity.
Qed.

(** ** The update without identity *)

(** C9. Under the remote strategy, an update workflow that passes the merger
    gate (it is about authors, or the merger is enabled) and whose payload
    has no [control_number] makes [store_record] raise [ValueError]; the
    state is the one of before, so no request has been issued. *)
Theorem update_without_control_number_raises_ValueError (eng : Engine) s :
  rest_enabled config = true ->
  truthy (dict_get (extra_data (obj s)) "is-update") = true ->
  data_type eng = "authors" \/ merger_enabled config = true ->
  data (obj s) !! "control_number" = None ->
  store_record config eng s
  = (Raise (ValueError "Control number is missing"), s).
Proof.
  intros Hrest Hupd Hgate Hcn.
  rewrite store_record_rest by assumption.
  apply retry_loop_not_retried; [|reflexivity].
  apply body_missing_control_number; try assumption.
  destruct Hgate as [-> | ?]; auto.
Qed.

(** ** The precondition header *)

(** C10. A replace call whose [head_version_id] is present and falsy
    ([None], [0], ...) sends its [PUT] request with no header at all; and a
    replace call sends an [If-Match] header only when [head_version_id] is
    truthy. *)
Theorem replace_without_head_version_sends_no_precondition
    (pid_type : string) (control_number hv : pyval) s :
  truthy control_number = true ->
  extra_data (obj s) !! "head_version_id" = Some hv ->
  (truthy hv = false ->
   requests (snd (send_record_to_hep pid_type control_number s))
   = requests s ++ [Put pid_type control_number (data (obj s)) ∅])
  /\ (forall r,
        requests (snd (send_record_to_hep pid_type control_number s))
        = requests s ++ [r] ->
        is_Some (request_headers r !! "If-Match") -> truthy hv = true).
Proof.
  intros Hcn Hhv.
  assert (truthy hv = false ->
          requests (snd (send_record_to_hep pid_type control_number s))
          = requests s ++ [Put pid_type control_number (data (obj s)) ∅])
    as Hfalsy.
  { intros Hf. rewrite (send_replace_falsy _ _ hv) by assumption.
    apply answered_requests. }
  split; [exact Hfalsy|].
  intros r Hreq Hhdr. destruct (truthy hv) eqn:Hf; [reflexivity|].
  rewrite Hfalsy in Hreq by reflexivity.
  apply app_inv_head in Hreq. injection Hreq as <-.
  simpl in Hhdr. rewrite lookup_empty in Hhdr.
  destruct Hhdr as [? ?]. discriminate.
Qed.

(** C5, as the code has it. A replace call whose [head_version_id] is a
    non-zero integer [n] sends exactly one [PUT] request, and this request
    carries the header [If-Match] with the quoted value of [n - 1]. *)
Theorem replace_carries_if_match_of_previous_version
    (pid_type : string) (control_number : pyval) (n : Z) s :
  truthy control_number = true ->
  extra_data (obj s) !! "head_version_id" = Some (PInt n) ->
  n <> 0 ->
  requests (snd (send_record_to_hep pid_type control_number s))
  = requests s ++ [Put pid_type control_number (data (obj s)) (if_match n)]
  /\ if_match n !! "If-Match" = Some (dquote +:+ pretty (n - 1) +:+ dquote).
Proof.
  intros Hcn Hhv Hn. split.
  - rewrite (send_replace_truthy _ _ (PInt n) (n - 1)); try assumption.
    + apply answered_requests.
    + simpl. apply negb_true_iff, Z.eqb_neq, Hn.
    + reflexivity.
  - unfold if_match. apply lookup_singleton_eq.
Qed.

(** ** The rejected replace *)

(** C1, as the code has it. A replace call, with an integer
    [head_version_id], whose request is answered by an error status other
    than 502 (the status 412 of a failed precondition is one): the call
    raises [WorkflowsError] with the status code and the message of the
    server, and the workflow object is the one of before, so [control_number]
    and [recid] are unchanged. *)
Theorem rejected_replace_raises_WorkflowsError
    (pid_type : string) (control_number : pyval) (n : Z)
    (response : Response) s :
  let r := Put pid_type control_number (data (obj s))
             (if n =? 0 then ∅ else if_match n) in
  truthy control_number = true ->
  extra_data (obj s) !! "head_version_id" = Some (PInt n) ->
  hep (length (requests s)) r = Raise (HTTPError response) ->
  status_code response <> 502 ->
  send_record_to_hep pid_type control_number s
  = (Raise
       (WorkflowsError
          ("Error from inspirehep [" +:+ pretty (status_code response)
           +:+ "]: "
           +:+ match json_body response with
               | Some j => py_str j
               | None => text response
               end)),
     sent r s)
  /\ control_number_of (obj (sent r s)) = control_number_of (obj s)
  /\ recid_of (obj (sent r s)) = recid_of (obj s).
Proof.
  intros r Hcn Hhv Hhep Hstatus. split; [|split; reflexivity].
  assert (send_record_to_hep pid_type control_number s
          = answered control_number r s) as ->.
  { destruct (n =? 0) eqn:Hn.
    - apply (send_replace_falsy _ _ (PInt n)); try assumption.
      simpl. rewrite Hn. reflexivity.
    - apply (send_replace_truthy _ _ (PInt n) (n - 1)); try assumption.
      + simpl. rewrite Hn. reflexivity.
      + reflexivity. }
  unfold answered. rewrite Hhep. unfold create_error.
  apply Z.eqb_neq in Hstatus. rewrite Hstatus. reflexivity.
Qed.


(** ** Staleness *)

(** C3. [is_stale_data] answers [False], and changes nothing, when the
    workflow is not an update or has no recorded head version.  For an
    update whose recorded head version is the integer [n] and whose head
    record is found at version [v], it answers whether [v] differs from [n]:
    [True] for a record at version 4 seen at version 3, [False] for a record
    at version 3 seen at version 3. *)
Theorem is_stale_data_compares_versions (eng : Engine) s :
  let is_update := dict_get (extra_data (obj s)) "is-update" in
  let head_version_id := dict_get (extra_data (obj s)) "head_version_id" in
  let head_uuid := dict_get (extra_data (obj s)) "head_uuid" in
  (truthy is_update = false \/ head_version_id = PNone ->
   is_stale_data eng s = (Ok false, s))
  /\ (forall (n : Z) (record : InspireRecord),
        truthy is_update = true ->
        head_version_id = PInt n ->
        get_record head_uuid (db s) = Ok record ->
        fst (is_stale_data eng s) = Ok (negb (version_id record =? n))
        /\ (version_id record = 4 -> n = 3 ->
            fst (is_stale_data eng s) = Ok true)
        /\ (version_id record = 3 -> n = 3 ->
            fst (is_stale_data eng s) = Ok false)).
Proof.
  intros is_update head_version_id head_uuid. split.
  - intros Hno. unfold is_stale_data, _is_stale_data, bind, get_obj.
    fold is_update head_version_id.
    destruct Hno as [-> | ->]; [reflexivity|].
    rewrite orb_true_r. reflexivity.
  - intros n record Hupd Hhv Hrec.
    assert (fst (is_stale_data eng s) = Ok (negb (version_id record =? n)))
      as Hgen.
    { unfold is_stale_data, _is_stale_data, bind, get_obj, read_db.
      fold is_update head_version_id head_uuid.
      rewrite Hupd, Hhv. simpl. rewrite Hrec. simpl.
      rewrite (Z.eqb_sym n). destruct (version_id record =? n); reflexivity. }
    split; [exact Hgen|]. split; intros Hv Hn; rewrite Hgen, Hv, Hn; reflexivity.
Qed.

(** ** The identity fields move together *)

Lemma stamped_or_untouched_refl o : stamped_or_untouched o o.
Proof. left. split; reflexivity. Qed.

Lemma stamped_or_untouched_trans o1 o2 o3 :
  stamped_or_untouched o1 o2 -> stamped_or_untouched o2 o3 ->
  stamped_or_untouched o1 o3.
Proof.
  intros H12 [[Hc Hr] | Hst]; [|right; exact Hst].
  destruct H12 as [[Hc' Hr'] | [v [Hc' Hr']]].
  - left. split; congruence.
  - right. exists v. split; congruence.
Qed.

Lemma stamped_or_untouched_keeps_equality o o' :
  stamped_or_untouched o o' ->
  control_number_of o = recid_of o -> control_number_of o' = recid_of o'.
Proof.
  intros [[Hc Hr] | [v [Hc Hr]]] Heq; congruence.
Qed.

Ltac stamped_leaf :=
  first
    [ left; split; reflexivity
    | right; eexists; unfold control_number_of, recid_of; simpl;
      split; simplify_map_eq; reflexivity ].

Lemma stamp_response_stamped (control_number response : pyval) s :
  stamped_or_untouched (obj s)
    (obj (snd (stamp_response control_number response s))).
Proof.
  unfold stamp_response. run_task.
  repeat split_match; try stamped_leaf.
Qed.

Lemma answered_stamped (control_number : pyval) (r : Request) s :
  stamped_or_untouched (obj s) (obj (snd (answered control_number r s))).
Proof.
  unfold answered.
  destruct (hep _ _) as [a|[]]; try apply stamped_or_untouched_refl.
  apply (stamp_response_stamped control_number a (sent r s)).
Qed.

Lemma send_record_to_hep_stamped (pid_type : string) (control_number : pyval)
    s :
  stamped_or_untouched (obj s)
    (obj (snd (send_record_to_hep pid_type control_number s))).
Proof.
  destruct (send_record_to_hep_cases pid_type control_number s)
    as [[r ->] | [e ->]].
  - apply answered_stamped.
  - apply stamped_or_untouched_refl.
Qed.

Lemma body_stamped (is_update : pyval) (is_authors : bool) s :
  stamped_or_untouched (obj s)
    (obj (snd (store_record_inspirehep_api_body config is_update
                 is_authors s))).
Proof.
  unfold store_record_inspirehep_api_body, bind, get_obj.
  repeat match goal with
         | |- context [if ?b then _ else _] => destruct b
         end;
    first [ apply send_record_to_hep_stamped
          | left; split; reflexivity ].
Qed.

Lemma retry_loop_stamped {A} (w : nat -> Z) (retried : exn -> bool)
    (target : M C A) :
  (forall s, stamped_or_untouched (obj s) (obj (snd (target s)))) ->
  forall (k n : nat) s,
    stamped_or_untouched (obj s)
      (obj (snd (retry_loop w retried k n target s))).
Proof.
  intros Htarget. induction k as [|k IH]; intros n s.
  - specialize (Htarget s). simpl.
    destruct (target s) as [[a|e] s']; [exact Htarget|].
    destruct (retried e); exact Htarget.
  - specialize (Htarget s). simpl.
    destruct (target s) as [[a|e] s'] eqn:Ht; [exact Htarget|].
    destruct (retried e); [|exact Htarget].
    unfold bind, sleep. simpl.
    eapply stamped_or_untouched_trans; [exact Htarget|].
    apply (IH (S n) (slept (full_jitter (w n)) s')).
Qed.

(** C6. Whatever [store_record] (under either strategy) and
    [send_record_to_hep] do, and whether they return or raise, they leave
    the payload's [control_number] and the extra data's [recid] alone or
    write both with one value; consequently, if the two were equal before
    the operation they are equal after it. *)
Theorem recid_and_control_number_move_together
    (eng : Engine) (pid_type : string) (control_number : pyval) s :
  let after_store := obj (snd (store_record config eng s)) in
  let after_send := obj (snd (send_record_to_hep pid_type control_number s)) in
  stamped_or_untouched (obj s) after_store
  /\ stamped_or_untouched (obj s) after_send
  /\ (control_number_of (obj s) = recid_of (obj s) ->
      control_number_of after_store = recid_of after_store
      /\ control_number_of after_send = recid_of after_send).
Proof.
  intros after_store after_send.
  assert (stamped_or_untouched (obj s) after_store) as Hstore.
  { subst after_store after_send.
    destruct (rest_enabled config) eqn:Hrest.
    - rewrite store_record_rest by assumption.
      apply retry_loop_stamped. intros s0. apply body_stamped.
    - unfold rest_enabled in Hrest.
      unfold store_record, bind, get_obj. rewrite Hrest. simpl.
      run_task. unfold getitem.
      repeat split_match; try stamped_leaf. }
  assert (stamped_or_untouched (obj s) after_send) as Hsend
    by apply send_record_to_hep_stamped.
  split; [exact Hstore|]. split; [exact Hsend|].
  intros Heq. split; eapply stamped_or_untouched_keeps_equality; eassumption.
Qed.


(** ** Successful stamping *)

Lemma stamp_response_Ok (control_number response md cn u : pyval) s :
  py_getitem response "metadata" = Ok md ->
  py_getitem md "control_number" = Ok cn ->
  (truthy control_number = false -> py_getitem response "uuid" = Ok u) ->
  (forall o, fst (save o (db s)) = Ok tt) ->
  exists s',
    stamp_response control_number response s = (Ok tt, s')
    /\ data (obj s') !! "control_number" = Some cn
    /\ extra_data (obj s') !! "recid" = Some cn
    /\ (truthy control_number = false ->
        extra_data (obj s') !! "head_uuid" = Some u)
    /\ requests s' = requests s /\ sleeps s' = sleeps s.
Proof.
  intros Hmd Hcn Huuid Hsave.
  unfold stamp_response. run_task. rewrite Hmd, Hcn. simpl.
  destruct (truthy control_number) eqn:Ht; simpl.
  - match goal with
    | |- context [save ?o (db s)] =>
        specialize (Hsave o); destruct (save o (db s)) as [r d]
    end.
    simpl in Hsave. subst r. eexists. split; [reflexivity|]. simpl.
    repeat split; simplify_map_eq; try reflexivity. discriminate.
  - rewrite Huuid by reflexivity. simpl.
    match goal with
    | |- context [save ?o (db s)] =>
        specialize (Hsave o); destruct (save o (db s)) as [r d]
    end.
    simpl in Hsave. subst r. eexists. split; [reflexivity|]. simpl.
    repeat split; simplify_map_eq; reflexivity.
Qed.

(** ** One attempt against the remote service *)

Lemma body_sends (is_update : pyval) (is_authors : bool) (req : Request) s :
  expected_request config (obj s) is_update is_authors = Some req ->
  store_record_inspirehep_api_body config is_update is_authors s
  = answered (dict_get (data (obj s)) "control_number") req s.
Proof.
  unfold expected_request, merger_enabled. intros Hreq.
  assert (send_record_to_hep (if is_authors then "aut" else "lit")
            (dict_get (data (obj s)) "control_number") s
          = answered (dict_get (data (obj s)) "control_number") req s)
    as Hsend.
  { destruct (truthy is_update && _); [discriminate|].
    destruct (truthy (dict_get (data (obj s)) "control_number")) eqn:Hcn.
    - destruct (extra_data (obj s) !! "head_version_id") as [[| | n | |]|]
        eqn:Hhv; try discriminate; injection Hreq as <-.
      + apply (send_replace_falsy _ _ PNone); auto.
      + destruct (n =? 0) eqn:Hn.
        * apply (send_replace_falsy _ _ (PInt n)); auto.
          simpl. rewrite Hn. reflexivity.
        * apply (send_replace_truthy _ _ (PInt n) (n - 1)); auto.
          simpl. rewrite Hn. reflexivity.
    - injection Hreq as <-. apply send_create. assumption. }
  unfold store_record_inspirehep_api_body, bind, get_obj.
  destruct (truthy is_update); [|exact Hsend].
  simpl in Hreq.
  destruct (negb is_authors && _); [discriminate|].
  simpl in Hreq.
  destruct (negb (dict_contains _ _)); [discriminate|].
  exact Hsend.
Qed.

Lemma expected_request_is_put o (is_update : pyval) (is_authors : bool)
    (req : Request) :
  expected_request config o is_update is_authors = Some req ->
  is_put req = truthy (dict_get (data o) "control_number").
Proof.
  unfold expected_request. intros Hreq.
  destruct (truthy is_update && _); [discriminate|].
  destruct (truthy (dict_get (data o) "control_number")).
  - destruct (extra_data o !! "head_version_id") as [[| | n | |]|];
      try discriminate; injection Hreq as <-; reflexivity.
  - injection Hreq as <-. reflexivity.
Qed.

Lemma body_bad_gateway (is_update : pyval) (is_authors : bool)
    (req : Request) (response : Response) s :
  expected_request config (obj s) is_update is_authors = Some req ->
  hep (length (requests s)) req = Raise (HTTPError response) ->
  status_code response = 502 ->
  store_record_inspirehep_api_body config is_update is_authors s
  = (Raise BadGatewayError, sent req s).
Proof.
  intros Hreq Hhep Hstatus. rewrite (body_sends _ _ req) by assumption.
  unfold answered. rewrite Hhep. unfold create_error. rewrite Hstatus.
  reflexivity.
Qed.

Lemma body_requests_le (is_update : pyval) (is_authors : bool) s :
  (length (requests (snd (store_record_inspirehep_api_body config is_update
                            is_authors s)))
   <= length (requests s) + 1)%nat.
Proof.
  assert (forall pid_type control_number,
            (length (requests (snd (send_record_to_hep pid_type
                                      control_number s)))
             <= length (requests s) + 1)%nat) as Hsend.
  { intros pid_type control_number.
    destruct (send_record_to_hep_cases pid_type control_number s)
      as [[r ->] | [e ->]].
    - rewrite answered_requests, length_app. simpl. lia.
    - simpl. lia. }
  unfold store_record_inspirehep_api_body, bind, get_obj.
  repeat match goal with
         | |- context [if ?b then _ else _] => destruct b
         end;
    first [ apply Hsend | simpl; lia ].
Qed.

Lemma retry_loop_requests_le {A} (w : nat -> Z) (retried : exn -> bool)
    (target : M C A) :
  (forall s, (length (requests (snd (target s)))
              <= length (requests s) + 1)%nat) ->
  forall (k n : nat) s,
    (length (requests (snd (retry_loop w retried k n target s)))
     <= length (requests s) + S k)%nat.
Proof.
  intros Htarget. induction k as [|k IH]; intros n s.
  - specialize (Htarget s). simpl.
    destruct (target s) as [[a|e] s']; [exact Htarget|].
    destruct (retried e); exact Htarget.
  - specialize (Htarget s). simpl.
    destruct (target s) as [[a|e] s'] eqn:Ht; simpl in *; [lia|].
    destruct (retried e); simpl; [|lia].
    unfold bind, sleep. simpl.
    specialize (IH (S n) (slept (full_jitter (w n)) s')). simpl in IH.
    unfold slept in IH. lia.
Qed.

(** The outcome of the loop is the outcome of the first attempt that does
    not raise an exception of the retried classes, or of the last attempt
    that the loop allows. *)
Lemma retry_loop_outcome {A} (w : nat -> Z) (retried : exn -> bool)
    (target : M C A) :
  forall (i k n : nat) s,
    (i <= k)%nat ->
    (forall j, (j < i)%nat ->
       exists e, fst (target (before_attempt w target n j s)) = Raise e
                 /\ retried e = true) ->
    (i = k
     \/ forall e, fst (target (before_attempt w target n i s)) = Raise e ->
                  retried e = false) ->
    retry_loop w retried k n target s
    = target (before_attempt w target n i s).
Proof.
  induction i as [|i IH]; intros k n s Hle Hbefore Hlast.
  - simpl in *. destruct (target s) as [[a|e] s'] eqn:Ht.
    + apply retry_loop_Ok. exact Ht.
    + destruct Hlast as [<- | Hlast].
      * apply retry_loop_give_up. exact Ht.
      * apply retry_loop_not_retried; [exact Ht|]. apply Hlast. reflexivity.
  - destruct k as [|k]; [lia|].
    destruct (Hbefore 0%nat ltac:(lia)) as (e & He & Hretried).
    simpl in He. destruct (target s) as [r s'] eqn:Ht. simpl in He. subst r.
    rewrite (retry_loop_again _ _ _ _ _ _ _ _ Ht Hretried).
    simpl. rewrite Ht. simpl.
    apply IH.
    + lia.
    + intros j Hj. specialize (Hbefore (S j) ltac:(lia)).
      simpl in Hbefore. rewrite Ht in Hbefore. exact Hbefore.
    + destruct Hlast as [Hk | Hlast]; [left; lia|right].
      intros e' He'. apply Hlast. simpl. rewrite Ht. exact He'.
Qed.

(** As long as the remote service answers 502, the attempts follow one
    another with the workflow object and the database as they were, one more
    request and one more delay each time. *)
Lemma before_attempt_bad_gateway (is_update : pyval) (is_authors : bool)
    (req : Request) (w : nat -> Z) :
  forall (i n : nat) s,
    expected_request config (obj s) is_update is_authors = Some req ->
    (forall j, (j < i)%nat ->
       exists r, hep (length (requests s) + j)%nat req = Raise (HTTPError r)
                 /\ status_code r = 502) ->
    let body := store_record_inspirehep_api_body config is_update is_authors in
    obj (before_attempt w body n i s) = obj s
    /\ db (before_attempt w body n i s) = db s
    /\ requests (before_attempt w body n i s)
       = requests s ++ replicate i req
    /\ length (sleeps (before_attempt w body n i s))
       = (length (sleeps s) + i)%nat
    /\ (forall j, (j < i)%nat ->
          fst (body (before_attempt w body n j s)) = Raise BadGatewayError).
Proof.
  induction i as [|i IH]; intros n s Hreq Hbad body.
  - simpl. rewrite app_nil_r. repeat split; lia.
  - destruct (Hbad 0%nat ltac:(lia)) as (r0 & H0 & S0).
    rewrite Nat.add_0_r in H0.
    pose proof (body_bad_gateway is_update is_authors req r0 s Hreq H0 S0)
      as Hbody.
    fold body in Hbody.
    destruct (IH (S n) (slept (full_jitter (w n)) (sent req s)) Hreq)
      as (Hobj & Hdb & Hrequests & Hsleeps & Hfirst).
    { intros j Hj. destruct (Hbad (S j) ltac:(lia)) as (r & Hr & Sr).
      exists r. split; [|exact Sr]. simpl. rewrite length_app. simpl.
      replace (length (requests s) + 1 + j)%nat
        with (length (requests s) + S j)%nat by lia.
      exact Hr. }
    fold body in Hobj, Hdb, Hrequests, Hsleeps, Hfirst.
    simpl. rewrite Hbody. simpl.
    split; [exact Hobj|]. split; [exact Hdb|]. split; [|split].
    + rewrite Hrequests. simpl. rewrite <- app_assoc. reflexivity.
    + rewrite Hsleeps. simpl. rewrite length_app. simpl. lia.
    + intros [|j] Hj.
      * simpl. rewrite Hbody. reflexivity.
      * simpl. rewrite Hbody. simpl. apply Hfirst. lia.
Qed.

(** ** Retrying on 502 *)

(** C2. [store_record_inspirehep_api] retries on [BadGatewayError] only,
    with waits 1, 4, 16, 64 (the powers of 4) and at most 5 attempts.  For a
    call that reaches the remote service with the request [req]: if the
    service answers 502 twice and then with a well-formed response, the call
    returns after exactly 3 requests; if it answers 502 five times, the call
    raises [BadGatewayError] after exactly 5 requests.  An attempt that
    raises any other exception ends the call at once, with that exception
    and the state of that single attempt.  Whatever the service answers, the
    call issues at most 5 requests.  In general the call ends as the first
    attempt that does not raise [BadGatewayError] ends, or as the fifth
    attempt does, each attempt starting after the delay that follows the one
    before; so an error status other than 502 that comes after [i] answers
    of 502 ends the call after exactly [i + 1] requests, with the
    [WorkflowsError] of that status.  The delays are drawn at random below
    1, 4, 16 and 64. *)
Theorem bad_gateway_alone_is_retried
    (is_update : pyval) (is_authors : bool) s :
  let k := length (requests s) in
  (forall (req : Request) (r1 r2 : Response) (response md cn u : pyval),
     expected_request config (obj s) is_update is_authors = Some req ->
     hep k req = Raise (HTTPError r1) -> status_code r1 = 502 ->
     hep (k + 1)%nat req = Raise (HTTPError r2) -> status_code r2 = 502 ->
     hep (k + 2)%nat req = Ok response ->
     py_getitem response "metadata" = Ok md ->
     py_getitem md "control_number" = Ok cn ->
     (is_put req = false -> py_getitem response "uuid" = Ok u) ->
     (forall o, fst (save o (db s)) = Ok tt) ->
     exists s',
       store_record_inspirehep_api config is_update is_authors s = (Ok tt, s')
       /\ requests s' = requests s ++ [req; req; req]
       /\ sleeps s' = sleeps s ++ [full_jitter 1; full_jitter 4])
  /\ (forall (req : Request),
        expected_request config (obj s) is_update is_authors = Some req ->
        (forall i : nat, (i < 5)%nat ->
           exists r, hep (k + i)%nat req = Raise (HTTPError r)
                     /\ status_code r = 502) ->
        exists s',
          store_record_inspirehep_api config is_update is_authors s
          = (Raise BadGatewayError, s')
          /\ requests s' = requests s ++ [req; req; req; req; req]
          /\ sleeps s'
             = sleeps s ++ [full_jitter 1; full_jitter 4; full_jitter 16;
                            full_jitter 64]
          /\ obj s' = obj s)
  /\ (forall e s',
        store_record_inspirehep_api_body config is_update is_authors s
        = (Raise e, s') ->
        e <> BadGatewayError ->
        store_record_inspirehep_api config is_update is_authors s
        = (Raise e, s'))
  /\ (length (requests
                (snd (store_record_inspirehep_api config is_update
                        is_authors s)))
      <= k + 5)%nat
  /\ (forall i : nat,
        (i < 5)%nat ->
        (forall j, (j < i)%nat ->
           fst (store_record_inspirehep_api_body config is_update is_authors
                  (before_attempt (expo 4 1)
                     (store_record_inspirehep_api_body config is_update
                        is_authors) 0 j s))
           = Raise BadGatewayError) ->
        i = 4%nat
        \/ fst (store_record_inspirehep_api_body config is_update is_authors
                  (before_attempt (expo 4 1)
                     (store_record_inspirehep_api_body config is_update
                        is_authors) 0 i s))
           <> Raise BadGatewayError ->
        store_record_inspirehep_api config is_update is_authors s
        = store_record_inspirehep_api_body config is_update is_authors
            (before_attempt (expo 4 1)
               (store_record_inspirehep_api_body config is_update is_authors)
               0 i s))
  /\ (forall (req : Request) (i : nat) (response : Response),
        expected_request config (obj s) is_update is_authors = Some req ->
        (i < 5)%nat ->
        (forall j, (j < i)%nat ->
           exists r, hep (k + j)%nat req = Raise (HTTPError r)
                     /\ status_code r = 502) ->
        hep (k + i)%nat req = Raise (HTTPError response) ->
        status_code response <> 502 ->
        exists s',
          store_record_inspirehep_api config is_update is_authors s
          = (Raise (create_error response), s')
          /\ is_BadGatewayError (create_error response) = false
          /\ requests s' = requests s ++ replicate (S i) req
          /\ length (sleeps s') = (length (sleeps s) + i)%nat
          /\ obj s' = obj s).
Proof.
  intros k.
  assert (forall i : nat,
            (i < 5)%nat ->
            (forall j, (j < i)%nat ->
               fst (store_record_inspirehep_api_body config is_update
                      is_authors
                      (before_attempt (expo 4 1)
                         (store_record_inspirehep_api_body config is_update
                            is_authors) 0 j s))
               = Raise BadGatewayError) ->
            i = 4%nat
            \/ fst (store_record_inspirehep_api_body config is_update
                      is_authors
                      (before_attempt (expo 4 1)
                         (store_record_inspirehep_api_body config is_update
                            is_authors) 0 i s))
               <> Raise BadGatewayError ->
            store_record_inspirehep_api config is_update is_authors s
            = store_record_inspirehep_api_body config is_update is_authors
                (before_attempt (expo 4 1)
                   (store_record_inspirehep_api_body config is_update
                      is_authors) 0 i s)) as Hfirst.
  { intros i Hi Hbefore Hlast.
    unfold store_record_inspirehep_api, on_exception.
    change (5 - 1)%nat with 4%nat.
    apply retry_loop_outcome.
    - lia.
    - intros j Hj. exists BadGatewayError. split; [auto|reflexivity].
    - destruct Hlast as [-> | Hlast]; [left; reflexivity|right].
      intros e He. destruct e; try reflexivity.
      exfalso. apply Hlast. exact He. }
  unfold store_record_inspirehep_api, on_exception.
  change (5 - 1)%nat with 4%nat.
  split; [|split; [|split; [|split; [|split]]]].
  - intros req r1 r2 response md cn u Hreq H1 S1 H2 S2 H3 Hmd Hcn Hu Hsave.
    set (s1 := slept (full_jitter (expo 4 1 0)) (sent req s)).
    set (s2 := slept (full_jitter (expo 4 1 1)) (sent req s1)).
    rewrite (retry_loop_again _ _ _ _ _ s BadGatewayError (sent req s));
      [|apply (body_bad_gateway _ _ req r1); assumption|reflexivity].
    fold s1.
    rewrite (retry_loop_again _ _ _ _ _ s1 BadGatewayError (sent req s1));
      [|apply (body_bad_gateway _ _ req r2); try assumption;
        unfold s1; simpl; rewrite length_app; exact H2|reflexivity].
    fold s2.
    destruct (stamp_response_Ok
                (dict_get (data (obj s)) "control_number") response md cn u
                (sent req s2) Hmd Hcn
                (fun Hf => Hu (eq_trans (expected_request_is_put _ _ _ _ Hreq)
                                 Hf))
                Hsave)
      as (s' & Hrun & _ & _ & _ & Hrequests & Hsleeps).
    exists s'. split; [|split].
    + apply retry_loop_Ok. rewrite (body_sends _ _ req) by exact Hreq.
      unfold answered.
      replace (length (requests s2)) with (k + 2)%nat
        by (unfold s2, s1; simpl; rewrite !length_app; simpl; lia).
      rewrite H3. exact Hrun.
    + rewrite Hrequests. unfold s2, s1. simpl.
      rewrite <- !app_assoc. reflexivity.
    + rewrite Hsleeps. unfold s2, s1. simpl.
      rewrite <- !app_assoc. reflexivity.
  - intros req Hreq Hbad.
    set (s1 := slept (full_jitter (expo 4 1 0)) (sent req s)).
    set (s2 := slept (full_jitter (expo 4 1 1)) (sent req s1)).
    set (s3 := slept (full_jitter (expo 4 1 2)) (sent req s2)).
    set (s4 := slept (full_jitter (expo 4 1 3)) (sent req s3)).
    destruct (Hbad 0%nat ltac:(lia)) as (r0 & H0 & S0).
    destruct (Hbad 1%nat ltac:(lia)) as (r1 & H1 & S1).
    destruct (Hbad 2%nat ltac:(lia)) as (r2 & H2 & S2).
    destruct (Hbad 3%nat ltac:(lia)) as (r3 & H3 & S3).
    destruct (Hbad 4%nat ltac:(lia)) as (r4 & H4 & S4).
    rewrite Nat.add_0_r in H0.
    exists (sent req s4).
    split; [|split; [|split]].
    + rewrite (retry_loop_again _ _ _ _ _ s BadGatewayError (sent req s));
        [|apply (body_bad_gateway _ _ req r0); assumption|reflexivity].
      fold s1.
      rewrite (retry_loop_again _ _ _ _ _ s1 BadGatewayError (sent req s1));
        [|apply (body_bad_gateway _ _ req r1); try assumption;
          unfold s1; simpl; rewrite !length_app; exact H1|reflexivity].
      fold s2.
      rewrite (retry_loop_again _ _ _ _ _ s2 BadGatewayError (sent req s2));
        [|apply (body_bad_gateway _ _ req r2); try assumption;
          replace (length (requests s2)) with (k + 2)%nat
            by (unfold s2, s1; simpl; rewrite !length_app; simpl; lia);
          exact H2|reflexivity].
      fold s3.
      rewrite (retry_loop_again _ _ _ _ _ s3 BadGatewayError (sent req s3));
        [|apply (body_bad_gateway _ _ req r3); try assumption;
          replace (length (requests s3)) with (k + 3)%nat
            by (unfold s3, s2, s1; simpl; rewrite !length_app; simpl; lia);
          exact H3|reflexivity].
      fold s4.
      apply retry_loop_give_up.
      apply (body_bad_gateway _ _ req r4); try assumption.
      replace (length (requests s4)) with (k + 4)%nat
        by (unfold s4, s3, s2, s1; simpl; rewrite !length_app; simpl; lia).
      exact H4.
    + unfold s4, s3, s2, s1. simpl. rewrite <- !app_assoc. reflexivity.
    + unfold s4, s3, s2, s1. simpl. rewrite <- !app_assoc. reflexivity.
    + reflexivity.
  - intros e s' Hbody He. apply retry_loop_not_retried; [exact Hbody|].
    destruct e; try reflexivity. contradiction.
  - apply retry_loop_requests_le. intros s0. apply body_requests_le.
  - exact Hfirst.
  - intros req i response Hreq Hi Hbad Hhep Hstatus.
    destruct (before_attempt_bad_gateway is_update is_authors req (expo 4 1)
                i 0%nat s Hreq Hbad)
      as (Hobj & Hdb & Hrequests & Hsleeps & Hbefore).
    set (body := store_record_inspirehep_api_body config is_update
                   is_authors) in *.
    set (si := before_attempt (expo 4 1) body 0 i s) in *.
    assert (create_error response
            = WorkflowsError
                ("Error from inspirehep [" +:+ pretty (status_code response)
                 +:+ "]: "
                 +:+ match json_body response with
                     | Some j => py_str j
                     | None => text response
                     end)) as Herror.
    { unfold create_error. apply Z.eqb_neq in Hstatus. rewrite Hstatus.
      reflexivity. }
    assert (body si = (Raise (create_error response), sent req si)) as Hbody.
    { unfold body. rewrite (body_sends _ _ req) by (rewrite Hobj; exact Hreq).
      unfold answered.
      replace (length (requests si)) with (k + i)%nat
        by (rewrite Hrequests, length_app, length_replicate; reflexivity).
      rewrite Hhep. reflexivity. }
    exists (sent req si). split; [|split; [|split; [|split]]].
    + rewrite <- Hbody.
      change (store_record_inspirehep_api config is_update is_authors s
              = body si).
      apply Hfirst; [exact Hi|exact Hbefore|].
      right. change (fst (body si) <> Raise BadGatewayError).
      rewrite Hbody, Herror. discriminate.
    + rewrite Herror. reflexivity.
    + simpl. rewrite Hrequests, <- app_assoc. f_equal.
      clear. induction i as [|i IH]; [reflexivity|].
      simpl. rewrite IH. reflexivity.
    + exact Hsleeps.
    + exact Hobj.
Qed.


(** ** Identity stamping on creation *)

(** C4. A workflow that is not an update and whose payload has no
    [control_number].  Local strategy: when the record is created, its
    documents downloaded, and record and workflow object committed, the
    payload's [control_number] and the extra data's [recid] are the
    [control_number] of the created record, and [head_uuid] is its
    identifier.  Remote strategy: when the [POST] request is answered by a
    response with [metadata.control_number] and [uuid], the payload's
    [control_number] and the extra data's [recid] are that control number
    and [head_uuid] is that [uuid]. *)
Theorem create_stamps_identity (eng : Engine) s :
  data (obj s) !! "control_number" = None ->
  truthy (dict_get (extra_data (obj s)) "is-update") = false ->
  (rest_enabled config = false ->
   forall (record : InspireRecord) (content : gmap string pyval)
          (cn : pyval) (d1 d2 d3 : DB),
     create (data (obj s)) (db s) = (Ok record, d1) ->
     download_documents_and_figures record (obj s) d1 = (Ok content, d2) ->
     content !! "control_number" = Some cn ->
     commit (with_json record content) d2 = (Ok tt, d3) ->
     (forall o, fst (save o d3) = Ok tt) ->
     exists s',
       store_record config eng s = (Ok tt, s')
       /\ data (obj s') !! "control_number" = Some cn
       /\ extra_data (obj s') !! "recid" = Some cn
       /\ extra_data (obj s') !! "head_uuid" = Some (PStr (id record)))
  /\ (rest_enabled config = true ->
      forall (response md cn u : pyval),
        hep (length (requests s))
          (Post (if String.eqb (data_type eng) "authors" then "aut" else "lit")
             (data (obj s)))
        = Ok response ->
        py_getitem response "metadata" = Ok md ->
        py_getitem md "control_number" = Ok cn ->
        py_getitem response "uuid" = Ok u ->
        (forall o, fst (save o (db s)) = Ok tt) ->
        exists s',
          store_record config eng s = (Ok tt, s')
          /\ data (obj s') !! "control_number" = Some cn
          /\ extra_data (obj s') !! "recid" = Some cn
          /\ extra_data (obj s') !! "head_uuid" = Some u).
Proof.
  intros Hnone Hnew. split.
  - intros Hrest record content cn d1 d2 d3 Hcreate Hdown Hcn Hcommit Hsave.
    unfold rest_enabled in Hrest.
    unfold store_record, bind, get_obj. rewrite Hrest. simpl.
    rewrite Hnew. run_task. rewrite Hcreate. simpl. rewrite Hdown. simpl.
    unfold getitem. rewrite Hcn. simpl. rewrite Hcommit. simpl.
    match goal with
    | |- context [save ?o d3] =>
        specialize (Hsave o); destruct (save o d3) as [r d4]
    end.
    simpl in Hsave. subst r. eexists. split; [reflexivity|]. simpl.
    repeat split; simplify_map_eq; reflexivity.
  - intros Hrest response md cn u Hhep Hmd Hcn Hu Hsave.
    rewrite store_record_rest by assumption.
    set (is_authors := String.eqb (data_type eng) "authors") in *.
    assert (dict_get (data (obj s)) "control_number" = PNone) as Hget
      by (unfold dict_get; rewrite Hnone; reflexivity).
    assert (expected_request config (obj s)
              (dict_get (extra_data (obj s)) "is-update") is_authors
            = Some (Post (if is_authors then "aut" else "lit") (data (obj s))))
      as Hreq.
    { unfold expected_request. rewrite Hnew, Hget. reflexivity. }
    destruct (stamp_response_Ok PNone response md cn u
                (sent (Post (if is_authors then "aut" else "lit")
                         (data (obj s))) s)
                Hmd Hcn (fun _ => Hu) Hsave)
      as (s' & Hrun & Hdata & Hrecid & Huuid & _).
    exists s'. split; [|split; [exact Hdata|split; [exact Hrecid|]]].
    + apply retry_loop_Ok. rewrite (body_sends _ _ _ _ Hreq).
      unfold answered. rewrite Hhep, Hget. exact Hrun.
    + apply Huuid. reflexivity.
Qed.

(** ** The table of source roots *)

Lemma has_key_true (u src : string) (r : WorkflowsRecordSources) :
  has_key u src r = true <-> (record_uuid r, source r) = (u, src).
Proof.
  unfold has_key. rewrite andb_true_iff, !String.eqb_eq.
  split; [intros [-> ->]; reflexivity|intros [= -> ->]; auto].
Qed.

Lemma same_key_has_key (r row : WorkflowsRecordSources) :
  same_key r row = has_key (record_uuid row) (source row) r.
Proof. reflexivity. Qed.

Lemma filter_absent_key (u src : string) (t : list WorkflowsRecordSources) :
  (u, src) ∉ map (fun r => (record_uuid r, source r)) t ->
  List.filter (has_key u src) t = [].
Proof.
  induction t as [|r t IH]; intros Hnotin; [reflexivity|].
  simpl in *. apply not_elem_of_cons in Hnotin as [Hne Hnotin].
  destruct (has_key u src r) eqn:Hk.
  - apply has_key_true in Hk. congruence.
  - apply IH, Hnotin.
Qed.

Lemma session_merge_rows_keys (row : WorkflowsRecordSources)
    (t : list WorkflowsRecordSources) (k : string * string) :
  k ∈ map (fun r => (record_uuid r, source r)) (session_merge_rows row t)
  <-> k = (record_uuid row, source row)
      \/ k ∈ map (fun r => (record_uuid r, source r)) t.
Proof.
  induction t as [|r t IH]; simpl.
  - rewrite elem_of_cons. reflexivity.
  - destruct (same_key r row) eqn:Hk; simpl.
    + rewrite same_key_has_key in Hk. apply has_key_true in Hk.
      rewrite !elem_of_cons, Hk. tauto.
    + rewrite !elem_of_cons, IH. tauto.
Qed.

Lemma session_merge_rows_unique (row : WorkflowsRecordSources)
    (t : list WorkflowsRecordSources) :
  unique_keys t -> unique_keys (session_merge_rows row t).
Proof.
  unfold unique_keys. induction t as [|r t IH]; simpl; intros Hnd.
  - apply NoDup_singleton.
  - apply NoDup_cons in Hnd as [Hnotin Hnd].
    destruct (same_key r row) eqn:Hk; simpl.
    + rewrite same_key_has_key in Hk. apply has_key_true in Hk.
      apply NoDup_cons. rewrite <- Hk. split; assumption.
    + apply NoDup_cons. split; [|apply IH, Hnd].
      rewrite session_merge_rows_keys. intros [Heq | Hin]; [|contradiction].
      assert (has_key (record_uuid row) (source row) r = true) as Hk'
        by (apply has_key_true; exact Heq).
      rewrite same_key_has_key in Hk. congruence.
Qed.

(** After a merge the table holds exactly one row under the key of the
    merged row: that row. *)
Lemma session_merge_rows_one_row (row : WorkflowsRecordSources)
    (t : list WorkflowsRecordSources) :
  unique_keys t ->
  List.filter (has_key (record_uuid row) (source row))
    (session_merge_rows row t)
  = [row].
Proof.
  unfold unique_keys. induction t as [|r t IH]; simpl; intros Hnd.
  - assert (has_key (record_uuid row) (source row) row = true) as ->
      by (apply has_key_true; reflexivity).
    reflexivity.
  - apply NoDup_cons in Hnd as [Hnotin Hnd].
    destruct (same_key r row) eqn:Hk; simpl.
    + assert (has_key (record_uuid row) (source row) row = true) as ->
        by (apply has_key_true; reflexivity).
      f_equal. apply filter_absent_key.
      rewrite same_key_has_key in Hk. apply has_key_true in Hk.
      rewrite <- Hk. exact Hnotin.
    + rewrite same_key_has_key in Hk. rewrite Hk. apply IH, Hnd.
Qed.

Lemma store_root_merges (root : pyval) (u : string) s :
  merger_enabled config = true ->
  extra_data (obj s) !! "merger_root" = Some root ->
  extra_data (obj s) !! "head_uuid" = Some (PStr u) ->
  lower (reader_source root) <> "" ->
  store_root config s
  = (Ok tt,
     {| obj := obj s; db := db s;
        record_sources :=
          session_merge_rows
            {| source := get_source_for_root (lower (reader_source root));
               record_uuid := u; root_json := root |}
            (record_sources s);
        requests := requests s; sleeps := sleeps s |}).
Proof.
  intros Hmerger Hroot Huuid Hsrc. unfold merger_enabled in Hmerger.
  unfold store_root. rewrite Hmerger. simpl. run_task. unfold getitem.
  rewrite Hroot, Huuid. simpl.
  apply String_eqb_false in Hsrc. rewrite Hsrc. reflexivity.
Qed.

(** C8. With the merger enabled, [store_root] run for a workflow object
    whose root is [J1] and then for one whose root is [J2], both with the
    head [u] and with sources of one label: the table, whose keys were
    unique, holds exactly one row under the key [(u, label)], and its
    content is [J2]. *)
Theorem store_root_twice_keeps_the_second_root
    (o1 o2 : WorkflowObject) (J1 J2 : pyval) (u label : string) s :
  merger_enabled config = true ->
  unique_keys (record_sources s) ->
  extra_data o1 !! "merger_root" = Some J1 ->
  extra_data o1 !! "head_uuid" = Some (PStr u) ->
  extra_data o2 !! "merger_root" = Some J2 ->
  extra_data o2 !! "head_uuid" = Some (PStr u) ->
  lower (reader_source J1) <> "" ->
  lower (reader_source J2) <> "" ->
  get_source_for_root (lower (reader_source J1)) = label ->
  get_source_for_root (lower (reader_source J2)) = label ->
  let first := store_root config (set_obj o1 s) in
  let second := store_root config (set_obj o2 (snd first)) in
  fst first = Ok tt /\ fst second = Ok tt
  /\ List.filter (has_key u label) (record_sources (snd second))
     = [{| source := label; record_uuid := u; root_json := J2 |}].
Proof.
  intros Hmerger Huniq Hr1 Hu1 Hr2 Hu2 Hs1 Hs2 Hl1 Hl2 first second.
  subst second first.
  rewrite (store_root_merges J1 u (set_obj o1 s)) by assumption.
  simpl.
  rewrite (store_root_merges J2 u) by assumption.
  simpl. rewrite Hl1, Hl2.
  split; [reflexivity|]. split; [reflexivity|].
  apply (session_merge_rows_one_row
           {| source := label; record_uuid := u; root_json := J2 |}).
  apply session_merge_rows_unique, Huniq.
Qed.

End Properties.

(** * The properties on the bench *)

Lemma store_record_skips_update_without_merger_witness :
  store_record Bench.rest_config_without_merger Bench.literature
    (Bench.initial [] Bench.update_obj Bench.store_with_head)
  = (Ok tt,
     logged skipping_update_msg
       (Bench.initial [] Bench.update_obj Bench.store_with_head))
  /\ store_record Bench.local_config_without_merger Bench.literature
       (Bench.initial [] Bench.update_obj Bench.store_with_head)
     = (Ok tt,
        logged skipping_update_msg
          (Bench.initial [] Bench.update_obj Bench.store_with_head)).
Proof.
  split.
  - apply (@store_record_skips_update_without_merger (Bench.collaborators [])).
    + reflexivity.
    + vm_compute. discriminate.
    + reflexivity.
  - apply (@store_record_skips_update_without_merger (Bench.collaborators [])).
    + reflexivity.
    + vm_compute. discriminate.
    + reflexivity.
Defined.

Lemma update_without_control_number_raises_ValueError_witness :
  store_record Bench.rest_config Bench.literature
    (Bench.initial [Bench.created]
       {| data := {[ "titles" := PStr "A title" ]};
          extra_data := {[ "is-update" := PBool true ]};
          log := [] |}
       Bench.empty_store)
  = (Raise (ValueError "Control number is missing"),
     Bench.initial [Bench.created]
       {| data := {[ "titles" := PStr "A title" ]};
          extra_data := {[ "is-update" := PBool true ]};
          log := [] |}
       Bench.empty_store).
Proof.
  apply (@update_without_control_number_raises_ValueError
           (Bench.collaborators [Bench.created])).
  - reflexivity.
  - reflexivity.
  - right. reflexivity.
  - reflexivity.
Defined.

Lemma replace_without_head_version_sends_no_precondition_witness :
  requests
    (snd (send_record_to_hep "lit" (PInt 1234)
            (Bench.initial [Bench.replaced] (Bench.with_head_version PNone)
               Bench.store_with_head)))
  = [Put "lit" (PInt 1234) (data Bench.update_obj) ∅].
Proof.
  apply (proj1 (@replace_without_head_version_sends_no_precondition
                  (Bench.collaborators [Bench.replaced])
                  "lit" (PInt 1234) PNone
                  (Bench.initial [Bench.replaced]
                     (Bench.with_head_version PNone) Bench.store_with_head)
                  eq_refl eq_refl)).
  reflexivity.
Defined.

Lemma replace_carries_if_match_of_previous_version_witness :
  requests
    (snd (send_record_to_hep "lit" (PInt 1234)
            (Bench.initial [Bench.replaced] Bench.update_obj
               Bench.store_with_head)))
  = [Put "lit" (PInt 1234) (data Bench.update_obj) (if_match 3)]
  /\ if_match 3 !! "If-Match" = Some (dquote +:+ "2" +:+ dquote).
Proof.
  apply (@replace_carries_if_match_of_previous_version
           (Bench.collaborators [Bench.replaced]) "lit" (PInt 1234) 3
           (Bench.initial [Bench.replaced] Bench.update_obj
              Bench.store_with_head)).
  - reflexivity.
  - reflexivity.
  - lia.
Defined.

(** C5, as stated, fails: a replace call for a workflow whose recorded head
    version is 0, or [None], is sent with no [If-Match] header. *)
Lemma replace_at_version_zero_carries_no_if_match :
  requests
    (snd (send_record_to_hep "lit" (PInt 1234)
            (Bench.initial [Bench.replaced] (Bench.with_head_version (PInt 0))
               Bench.store_with_head)))
  = [Put "lit" (PInt 1234) (data Bench.update_obj) ∅]
  /\ requests
       (snd (send_record_to_hep "lit" (PInt 1234)
               (Bench.initial [Bench.replaced] (Bench.with_head_version PNone)
                  Bench.store_with_head)))
     = [Put "lit" (PInt 1234) (data Bench.update_obj) ∅]
  /\ request_headers (Put "lit" (PInt 1234) (data Bench.update_obj) ∅)
       !! "If-Match" = None.
Proof. vm_compute. repeat split; reflexivity. Qed.

Lemma rejected_replace_raises_WorkflowsError_witness :
  send_record_to_hep "lit" (PInt 1234)
    (Bench.initial [Bench.precondition_failed] Bench.update_obj
       Bench.store_with_head)
  = (Raise
       (WorkflowsError "Error from inspirehep [412]: Precondition Failed"),
     sent Bench.replace_request
       (Bench.initial [Bench.precondition_failed] Bench.update_obj
          Bench.store_with_head))
  /\ control_number_of
       (obj (sent Bench.replace_request
               (Bench.initial [Bench.precondition_failed] Bench.update_obj
                  Bench.store_with_head)))
     = Some (PInt 1234)
  /\ recid_of
       (obj (sent Bench.replace_request
               (Bench.initial [Bench.precondition_failed] Bench.update_obj
                  Bench.store_with_head)))
     = None.
Proof.
  apply (@rejected_replace_raises_WorkflowsError
           (Bench.collaborators [Bench.precondition_failed])
           "lit" (PInt 1234) 3 Bench.precondition_failed_response
           (Bench.initial [Bench.precondition_failed] Bench.update_obj
              Bench.store_with_head)).
  - reflexivity.
  - reflexivity.
  - reflexivity.
  - vm_compute. discriminate.
Defined.

(** C1, as stated, fails: a replace call rejected with the status 412 of a
    failed precondition raises [WorkflowsError], not an exception of a class
    [ConflictError]. *)
Lemma rejected_precondition_raises_no_ConflictError :
  fst (send_record_to_hep "lit" (PInt 1234)
         (Bench.initial [Bench.precondition_failed] Bench.update_obj
            Bench.store_with_head))
  = Raise (WorkflowsError "Error from inspirehep [412]: Precondition Failed")
  /\ exn_class
       (WorkflowsError "Error from inspirehep [412]: Precondition Failed")
     <> "ConflictError".
Proof. split; [vm_compute; reflexivity | vm_compute; discriminate]. Qed.

Lemma is_stale_data_compares_versions_witness :
  is_stale_data Bench.literature
    (Bench.initial [] Bench.new_obj Bench.store_with_head)
  = (Ok false, Bench.initial [] Bench.new_obj Bench.store_with_head)
  /\ fst (is_stale_data Bench.literature
            (Bench.initial [] Bench.update_obj Bench.store_with_head))
     = Ok true.
Proof.
  split.
  - apply (proj1 (@is_stale_data_compares_versions (Bench.collaborators [])
                    Bench.literature
                    (Bench.initial [] Bench.new_obj Bench.store_with_head))).
    left. reflexivity.
  - apply (proj2 (@is_stale_data_compares_versions (Bench.collaborators [])
                    Bench.literature
                    (Bench.initial [] Bench.update_obj Bench.store_with_head))
             3 Bench.head).
    + reflexivity.
    + reflexivity.
    + reflexivity.
    + reflexivity.
    + reflexivity.
Defined.

Lemma recid_and_control_number_move_together_witness :
  control_number_of
    (obj (snd (store_record Bench.local_config Bench.literature
                 (Bench.initial [Bench.created] Bench.new_obj Bench.empty_store))))
  = recid_of
      (obj (snd (store_record Bench.local_config Bench.literature
                   (Bench.initial [Bench.created] Bench.new_obj Bench.empty_store))))
  /\ control_number_of
       (obj (snd (send_record_to_hep "lit" PNone
                    (Bench.initial [Bench.created] Bench.new_obj Bench.empty_store))))
     = recid_of
         (obj (snd (send_record_to_hep "lit" PNone
                      (Bench.initial [Bench.created] Bench.new_obj Bench.empty_store)))).
Proof.
  apply (@recid_and_control_number_move_together
           (Bench.collaborators [Bench.created])
           Bench.local_config Bench.literature "lit" PNone
           (Bench.initial [Bench.created] Bench.new_obj Bench.empty_store)).
  reflexivity.
Defined.

Lemma bad_gateway_alone_is_retried_witness :
  (exists s',
     store_record_inspirehep_api Bench.rest_config (PBool true) false
       (Bench.initial [Bench.bad_gateway; Bench.bad_gateway; Bench.replaced]
          Bench.update_obj Bench.store_with_head)
     = (Ok tt, s')
     /\ requests s'
        = [] ++ [Bench.replace_request; Bench.replace_request;
                 Bench.replace_request]
     /\ sleeps s' = [] ++ [full_jitter 1; full_jitter 4])
  /\ (exists s',
        store_record_inspirehep_api Bench.rest_config (PBool true) false
          (Bench.initial
             [Bench.bad_gateway; Bench.bad_gateway; Bench.bad_gateway;
              Bench.bad_gateway; Bench.bad_gateway; Bench.replaced]
             Bench.update_obj Bench.store_with_head)
        = (Raise BadGatewayError, s')
        /\ requests s'
           = [] ++ [Bench.replace_request; Bench.replace_request;
                    Bench.replace_request; Bench.replace_request;
                    Bench.replace_request]
        /\ sleeps s'
           = [] ++ [full_jitter 1; full_jitter 4; full_jitter 16;
                    full_jitter 64]
        /\ obj s' = Bench.update_obj)
  /\ store_record_inspirehep_api Bench.rest_config (PBool true) false
       (Bench.initial [Bench.precondition_failed; Bench.replaced]
          Bench.update_obj Bench.store_with_head)
     = (Raise
          (WorkflowsError "Error from inspirehep [412]: Precondition Failed"),
        sent Bench.replace_request
          (Bench.initial [Bench.precondition_failed; Bench.replaced]
             Bench.update_obj Bench.store_with_head))
  /\ (exists s',
        store_record_inspirehep_api Bench.rest_config (PBool true) false
          (Bench.initial
             [Bench.bad_gateway; Bench.precondition_failed;
              Bench.precondition_failed; Bench.precondition_failed;
              Bench.precondition_failed]
             Bench.update_obj Bench.store_with_head)
        = (Raise
             (@create_error
                (Bench.collaborators
                   [Bench.bad_gateway; Bench.precondition_failed;
                    Bench.precondition_failed; Bench.precondition_failed;
                    Bench.precondition_failed])
                Bench.precondition_failed_response),
           s')
        /\ is_BadGatewayError
             (@create_error
                (Bench.collaborators
                   [Bench.bad_gateway; Bench.precondition_failed;
                    Bench.precondition_failed; Bench.precondition_failed;
                    Bench.precondition_failed])
                Bench.precondition_failed_response)
           = false
        /\ requests s' = [] ++ replicate 2 Bench.replace_request
        /\ length (sleeps s') = (0 + 1)%nat
        /\ obj s' = Bench.update_obj).
Proof.
  split; [|split; [|split]].
  - apply (proj1 (@bad_gateway_alone_is_retried
                    (Bench.collaborators
                       [Bench.bad_gateway; Bench.bad_gateway; Bench.replaced])
                    Bench.rest_config (PBool true) false
                    (Bench.initial
                       [Bench.bad_gateway; Bench.bad_gateway; Bench.replaced]
                       Bench.update_obj Bench.store_with_head))
             Bench.replace_request
             Bench.bad_gateway_response Bench.bad_gateway_response
             Bench.replaced_body
             (PDict {[ "control_number" := PInt 1234 ]}) (PInt 1234) PNone).
    + reflexivity.
    + reflexivity.
    + reflexivity.
    + reflexivity.
    + reflexivity.
    + reflexivity.
    + reflexivity.
    + reflexivity.
    + simpl. discriminate.
    + intros o. reflexivity.
  - apply (proj1 (proj2 (@bad_gateway_alone_is_retried
                    (Bench.collaborators
                       [Bench.bad_gateway; Bench.bad_gateway;
                        Bench.bad_gateway; Bench.bad_gateway;
                        Bench.bad_gateway; Bench.replaced])
                    Bench.rest_config (PBool true) false
                    (Bench.initial
                       [Bench.bad_gateway; Bench.bad_gateway;
                        Bench.bad_gateway; Bench.bad_gateway;
                        Bench.bad_gateway; Bench.replaced]
                       Bench.update_obj Bench.store_with_head)))
             Bench.replace_request).
    + reflexivity.
    + intros i Hi. exists Bench.bad_gateway_response.
      destruct i as [|[|[|[|[|i]]]]]; [split; reflexivity ..|lia].
  - apply (proj1 (proj2 (proj2 (@bad_gateway_alone_is_retried
                    (Bench.collaborators
                       [Bench.precondition_failed; Bench.replaced])
                    Bench.rest_config (PBool true) false
                    (Bench.initial
                       [Bench.precondition_failed; Bench.replaced]
                       Bench.update_obj Bench.store_with_head))))).
    + reflexivity.
    + discriminate.
  - apply (proj2 (proj2 (proj2 (proj2 (proj2
             (@bad_gateway_alone_is_retried
                (Bench.collaborators
                   [Bench.bad_gateway; Bench.precondition_failed;
                    Bench.precondition_failed; Bench.precondition_failed;
                    Bench.precondition_failed])
                Bench.rest_config (PBool true) false
                (Bench.initial
                   [Bench.bad_gateway; Bench.precondition_failed;
                    Bench.precondition_failed; Bench.precondition_failed;
                    Bench.precondition_failed]
                   Bench.update_obj Bench.store_with_head))))))
             Bench.replace_request 1%nat Bench.precondition_failed_response).
    + reflexivity.
    + lia.
    + intros j Hj. exists Bench.bad_gateway_response.
      destruct j as [|j]; [split; reflexivity|lia].
    + reflexivity.
    + discriminate.
Defined.

Lemma create_stamps_identity_witness :
  (exists s',
     store_record Bench.local_config Bench.literature
       (Bench.initial [] Bench.new_obj Bench.empty_store)
     = (Ok tt, s')
     /\ data (obj s') !! "control_number" = Some (PInt 1)
     /\ extra_data (obj s') !! "recid" = Some (PInt 1)
     /\ extra_data (obj s') !! "head_uuid" = Some (PStr "uuid-1"))
  /\ (exists s',
        store_record Bench.rest_config Bench.literature
          (Bench.initial [Bench.created] Bench.new_obj Bench.empty_store)
        = (Ok tt, s')
        /\ data (obj s') !! "control_number" = Some (PInt 77)
        /\ extra_data (obj s') !! "recid" = Some (PInt 77)
        /\ extra_data (obj s') !! "head_uuid" = Some (PStr "new-uuid")).
Proof.
  split.
  - apply (proj1 (@create_stamps_identity (Bench.collaborators [])
                    Bench.local_config Bench.literature
                    (Bench.initial [] Bench.new_obj Bench.empty_store)
                    eq_refl eq_refl)
             eq_refl
             {| id := "uuid-1";
                json := <["control_number" := PInt 1]> (data Bench.new_obj);
                version_id := 1 |}
             (<["control_number" := PInt 1]> (data Bench.new_obj))
             (PInt 1)
             (snd (Bench.bench_create (data Bench.new_obj) Bench.empty_store))
             (snd (Bench.bench_create (data Bench.new_obj) Bench.empty_store))
             (snd (Bench.bench_commit
                     {| id := "uuid-1";
                        json := <["control_number" := PInt 1]>
                                  (data Bench.new_obj);
                        version_id := 1 |}
                     (snd (Bench.bench_create (data Bench.new_obj)
                             Bench.empty_store))))).
    + vm_compute. reflexivity.
    + reflexivity.
    + reflexivity.
    + reflexivity.
    + intros o. reflexivity.
  - apply (proj2 (@create_stamps_identity
                    (Bench.collaborators [Bench.created])
                    Bench.rest_config Bench.literature
                    (Bench.initial [Bench.created] Bench.new_obj
                       Bench.empty_store)
                    eq_refl eq_refl)
             eq_refl
             Bench.created_body
             (PDict {[ "control_number" := PInt 77 ]})
             (PInt 77) (PStr "new-uuid")).
    + reflexivity.
    + reflexivity.
    + reflexivity.
    + reflexivity.
    + intros o. reflexivity.
Defined.

Lemma store_root_twice_keeps_the_second_root_witness :
  fst (store_root Bench.local_config
         (set_obj (Bench.with_root (Bench.root_of "First"))
            (Bench.with_stored_roots Bench.update_obj Bench.store_with_head)))
  = Ok tt
  /\ fst (store_root Bench.local_config
            (set_obj (Bench.with_root (Bench.root_of "Second"))
               (snd (store_root Bench.local_config
                       (set_obj (Bench.with_root (Bench.root_of "First"))
                          (Bench.with_stored_roots Bench.update_obj
                             Bench.store_with_head))))))
     = Ok tt
  /\ List.filter (has_key "head-1" "publisher")
       (record_sources
          (snd (store_root Bench.local_config
                  (set_obj (Bench.with_root (Bench.root_of "Second"))
                     (snd (store_root Bench.local_config
                             (set_obj
                                (Bench.with_root (Bench.root_of "First"))
                                (Bench.with_stored_roots Bench.update_obj
                                   Bench.store_with_head))))))))
     = [{| source := "publisher"; record_uuid := "head-1";
           root_json := Bench.root_of "Second" |}].
Proof.
  apply (@store_root_twice_keeps_the_second_root (Bench.collaborators [])
           Bench.local_config
           (Bench.with_root (Bench.root_of "First"))
           (Bench.with_root (Bench.root_of "Second"))
           (Bench.root_of "First") (Bench.root_of "Second")
           "head-1" "publisher"
           (Bench.with_stored_roots Bench.update_obj Bench.store_with_head)).
  - reflexivity.
  - apply (bool_decide_unpack _). vm_compute. exact I.
  - reflexivity.
  - reflexivity.
  - reflexivity.
  - reflexivity.
  - vm_compute. discriminate.
  - vm_compute. discriminate.
  - reflexivity.
  - reflexivity.
Defined.

(** * Further properties of the tasks *)

Section MoreProperties.

Context {C : Collaborators}.
Variable config : gmap string pyval.

Implicit Types (s : State C) (o : WorkflowObject) (e : exn).

Ltac run :=
  unfold try_except_HTTPError, begin_nested, bind,
    get_obj, lift, ret, raise, put_record_to_hep, post_record_to_hep,
    send_request, setitem_data, setitem_extra_data, replace_data, on_db,
    read_db, log_debug, log_info, set_obj, set_db; simpl.

Ltac split_inner :=
  match goal with
  | |- context [match ?x with _ => _ end] =>
      lazymatch x with
      | context [match _ with _ => _ end] => fail
      | _ => destruct x eqn:?; simpl
      end
  end.

(** ** What a task may change *)

(** The part of the state that the storage tasks leave alone or only
    extend. *)
Lemma only_identity_written_refl o : only_identity_written o o.
Proof. split; intros; reflexivity. Qed.

Lemma only_identity_written_trans o1 o2 o3 :
  only_identity_written o1 o2 -> only_identity_written o2 o3 ->
  only_identity_written o1 o3.
Proof.
  intros [Hd He] [Hd' He']. split.
  - intros k Hk. rewrite Hd', Hd by assumption. reflexivity.
  - intros k Hk1 Hk2. rewrite He', He by assumption. reflexivity.
Qed.

Ltac identity_leaf :=
  split; intros; simpl; rewrite ?lookup_insert_ne by congruence; reflexivity.

Lemma stamp_response_writes (control_number response : pyval) s :
  let s' := snd (stamp_response control_number response s) in
  only_identity_written (obj s) (obj s')
  /\ log (obj s') = log (obj s)
  /\ (truthy control_number = true ->
      extra_data (obj s') !! "head_uuid" = extra_data (obj s) !! "head_uuid").
Proof.
  unfold stamp_response. run.
  destruct (truthy control_number); simpl;
    repeat split_inner;
    (split; [identity_leaf|split; [reflexivity|]]);
    intros; try discriminate; simpl;
    rewrite ?lookup_insert_ne by congruence; reflexivity.
Qed.

Lemma send_record_to_hep_kinds (pid_type : string) (control_number : pyval) s :
  (exists r, send_record_to_hep pid_type control_number s
             = answered control_number r s
             /\ is_put r = truthy control_number)
  \/ (exists e, send_record_to_hep pid_type control_number s = (Raise e, s)).
Proof.
  destruct (truthy control_number) eqn:Hcn.
  - destruct (extra_data (obj s) !! "head_version_id") as [hv|] eqn:Hhv.
    + destruct (truthy hv) eqn:Ht.
      * destruct (py_pred hv) as [v|e] eqn:Hp.
        -- left. eexists. split;
             [apply (send_replace_truthy _ _ hv v); assumption|reflexivity].
        -- right. exists TypeError.
           assert (e = TypeError) as ->
             by (destruct hv; simpl in Hp; congruence).
           rewrite send_record_to_hep_stamp. run.
           unfold getitem. rewrite Hcn, Hhv. simpl. rewrite Ht, Hp.
           reflexivity.
      * left. eexists. split;
          [apply (send_replace_falsy _ _ hv); assumption|reflexivity].
    + right. exists (KeyError "head_version_id").
      rewrite send_record_to_hep_stamp. run. unfold getitem.
      rewrite Hcn, Hhv. reflexivity.
  - left. eexists. split; [apply send_create; assumption|reflexivity].
Qed.

Lemma answered_writes (control_number : pyval) (r : Request) s :
  let s' := snd (answered control_number r s) in
  only_identity_written (obj s) (obj s')
  /\ log (obj s') = log (obj s)
  /\ record_sources s' = record_sources s /\ sleeps s' = sleeps s
  /\ (truthy control_number = true ->
      extra_data (obj s') !! "head_uuid" = extra_data (obj s) !! "head_uuid").
Proof.
  unfold answered.
  destruct (hep _ _) as [a|e].
  - destruct (stamp_response_writes control_number a (sent r s))
      as (Hw & Hlog & Huuid).
    destruct (stamp_response_frame control_number a (sent r s))
      as (_ & Hsl & Hrs).
    simpl in *. repeat split; try assumption; apply Hw.
  - assert (snd (match e with
                 | HTTPError response =>
                     (@Raise unit (create_error response), sent r s)
                 | _ => (Raise e, sent r s)
                 end) = sent r s) as -> by (destruct e; reflexivity).
    simpl. repeat split; reflexivity.
Qed.

(** X1. Whatever the remote service answers, [send_record_to_hep] changes
    nothing of the workflow object but the payload's [control_number] and
    the extra data's [recid] and [head_uuid]; it writes no log line, leaves
    the table of source roots and the delays alone, never writes
    [head_uuid] in a replace call, and issues at most one request: a [PUT]
    when [control_number] is truthy, a [POST] otherwise. *)
Theorem send_record_to_hep_writes_identity_only
    (pid_type : string) (control_number : pyval) s :
  let s' := snd (send_record_to_hep pid_type control_number s) in
  only_identity_written (obj s) (obj s')
  /\ log (obj s') = log (obj s)
  /\ record_sources s' = record_sources s /\ sleeps s' = sleeps s
  /\ (truthy control_number = true ->
      extra_data (obj s') !! "head_uuid" = extra_data (obj s) !! "head_uuid")
  /\ (requests s' = requests s
      \/ exists r, requests s' = requests s ++ [r]
                   /\ is_put r = truthy control_number).
Proof.
  intros s'. subst s'.
  destruct (send_record_to_hep_kinds pid_type control_number s)
    as [(r & -> & Hkind) | [e ->]].
  - destruct (answered_writes control_number r s)
      as (Hw & Hlog & Hrs & Hsl & Huuid).
    repeat split; try assumption; try apply Hw.
    right. exists r. split; [apply answered_requests|exact Hkind].
  - simpl. repeat split; try reflexivity. left. reflexivity.
Qed.


(** ** The retry loop, in general *)

Lemma storage_frame_refl s : storage_frame s s.
Proof.
  split; [apply only_identity_written_refl|]. split; reflexivity.
Qed.

Lemma storage_frame_trans s1 s2 s3 :
  storage_frame s1 s2 -> storage_frame s2 s3 -> storage_frame s1 s3.
Proof.
  intros (Hw & Hl & Hr) (Hw' & Hl' & Hr'). split; [|split].
  - eapply only_identity_written_trans; eassumption.
  - etransitivity; eassumption.
  - congruence.
Qed.

(** A relation between states that holds across every attempt and every
    delay holds across the whole loop. *)
Lemma retry_loop_preserves {A} (R : State C -> State C -> Prop)
    (w : nat -> Z) (retried : exn -> bool) (target : M C A) :
  (forall s1 s2 s3, R s1 s2 -> R s2 s3 -> R s1 s3) ->
  (forall s d, R s (slept d s)) ->
  (forall s, R s (snd (target s))) ->
  forall (k n : nat) s, R s (snd (retry_loop w retried k n target s)).
Proof.
  intros Htrans Hsleep Htarget. induction k as [|k IH]; intros n s.
  - specialize (Htarget s). simpl.
    destruct (target s) as [[a|e] s']; [exact Htarget|].
    destruct (retried e); exact Htarget.
  - specialize (Htarget s). simpl.
    destruct (target s) as [[a|e] s'] eqn:Ht; [exact Htarget|].
    destruct (retried e); [|exact Htarget].
    unfold bind, sleep. simpl.
    eapply Htrans; [exact Htarget|].
    eapply Htrans; [apply (Hsleep s' (full_jitter (w n)))|].
    apply (IH (S n) (slept (full_jitter (w n)) s')).
Qed.

(** The delays of the loop are the jitters of the first values of the wait
    generator, and an exception of a retried class comes out only when all
    of them have been slept. *)
Lemma retry_loop_sleeps {A} (w : nat -> Z) (retried : exn -> bool)
    (target : M C A) :
  (forall s, sleeps (snd (target s)) = sleeps s) ->
  forall (k n : nat) s,
  exists j : nat,
    (j <= k)%nat
    /\ sleeps (snd (retry_loop w retried k n target s))
       = sleeps s ++ map (fun m => full_jitter (w m)) (seq n j)
    /\ (forall e, fst (retry_loop w retried k n target s) = Raise e ->
                  retried e = true -> j = k).
Proof.
  intros Htarget. induction k as [|k IH]; intros n s;
    specialize (Htarget s);
    destruct (target s) as [[a|e] s'] eqn:Ht; simpl in Htarget.
  - exists 0%nat. rewrite (retry_loop_Ok _ _ _ _ _ _ _ _ Ht). simpl.
    rewrite app_nil_r. auto.
  - exists 0%nat. rewrite (retry_loop_give_up _ _ _ _ _ _ _ Ht). simpl.
    rewrite app_nil_r. auto.
  - exists 0%nat. rewrite (retry_loop_Ok _ _ _ _ _ _ _ _ Ht). simpl.
    rewrite app_nil_r. split; [lia|]. split; [assumption|].
    intros; discriminate.
  - destruct (retried e) eqn:He.
    + rewrite (retry_loop_again _ _ _ _ _ _ _ _ Ht He).
      destruct (IH (S n) (slept (full_jitter (w n)) s')) as (j & Hj & Hsl & Hlast).
      exists (S j). split; [lia|]. split.
      * rewrite Hsl. simpl. rewrite Htarget, <- app_assoc. reflexivity.
      * intros e' He' Hr. f_equal. eapply Hlast; eassumption.
    + exists 0%nat. rewrite (retry_loop_not_retried _ _ _ _ _ _ _ _ Ht He).
      simpl. rewrite app_nil_r. split; [lia|]. split; [assumption|].
      intros e' [= <-] Hr. congruence.
Qed.

(** ** One attempt, in general *)

Lemma body_effects (is_update : pyval) (is_authors : bool) s :
  let s' := snd (store_record_inspirehep_api_body config is_update
                   is_authors s) in
  storage_frame s s' /\ sleeps s' = sleeps s
  /\ requests s `prefix_of` requests s'.
Proof.
  assert (forall pid_type control_number,
            let s' := snd (send_record_to_hep pid_type control_number s) in
            storage_frame s s' /\ sleeps s' = sleeps s
            /\ requests s `prefix_of` requests s') as Hsend.
  { intros pid_type control_number.
    destruct (send_record_to_hep_kinds pid_type control_number s)
      as [(r & -> & _) | [e ->]].
    - destruct (answered_writes control_number r s)
        as (Hw & Hlog & Hrs & Hsl & _).
      split; [split; [exact Hw|split; [rewrite Hlog; reflexivity|exact Hrs]]|].
      split; [exact Hsl|].
      rewrite answered_requests. apply prefix_app_r. reflexivity.
    - simpl. split; [apply storage_frame_refl|]. split; reflexivity. }
  unfold store_record_inspirehep_api_body, bind, get_obj.
  repeat match goal with
         | |- context [if ?b then _ else _] => destruct b
         end;
    try apply Hsend; simpl.
  - split; [|split; reflexivity].
    split; [split; intros; reflexivity|].
    split; [apply prefix_app_r; reflexivity|reflexivity].
  - split; [apply storage_frame_refl|]. split; reflexivity.
Qed.

(** ** What [store_record] may change *)

Ltac frame_leaf :=
  split;
    [ split; intros; simpl; rewrite ?lookup_insert_ne by congruence;
      reflexivity
    | split;
      [ first [ reflexivity | apply prefix_app_r; reflexivity ]
      | reflexivity ] ].

(** X2. Under either strategy, returning or raising, [store_record] changes
    nothing of the workflow object but the payload's [control_number] and
    the extra data's [recid] and [head_uuid], only extends its log, and
    leaves the table of source roots alone; under the local strategy it
    issues no request and sleeps no delay. *)
Theorem store_record_writes_identity_only (eng : Engine) s :
  let s' := snd (store_record config eng s) in
  storage_frame s s'
  /\ (rest_enabled config = false ->
      requests s' = requests s /\ sleeps s' = sleeps s).
Proof.
  intros s'. subst s'.
  destruct (rest_enabled config) eqn:Hrest.
  - split; [|intros; discriminate].
    rewrite store_record_rest by assumption.
    apply (retry_loop_preserves storage_frame).
    + apply storage_frame_trans.
    + intros s0 d. apply (storage_frame_refl s0).
    + intros s0. apply body_effects.
  - unfold rest_enabled in Hrest.
    unfold store_record, bind, get_obj. rewrite Hrest. simpl.
    run. unfold getitem.
    repeat split_inner;
      (split; [frame_leaf|intros _; split; reflexivity]).
Qed.

(** X3. Under the local strategy, whenever [store_record] raises, the
    database is the one of before the call: what the record API had written
    inside the nested transaction is rolled back. *)
Theorem local_store_rolls_back_on_error (eng : Engine) s e :
  rest_enabled config = false ->
  fst (store_record config eng s) = Raise e ->
  db (snd (store_record config eng s)) = db s.
Proof.
  unfold rest_enabled. intros Hrest.
  unfold store_record, bind, get_obj. rewrite Hrest. simpl.
  unfold begin_nested.
  match goal with
  | |- context [match ?body with _ => _ end] =>
      destruct body as [[a|e'] s']
  end; simpl; [discriminate|reflexivity].
Qed.

(** X4. [store_record_inspirehep_api] sleeps at most four delays, drawn at
    random below 1, 4, 16 and 64 in this order, and [BadGatewayError] comes
    out of it only after all four delays, that is after five attempts. *)
Theorem bad_gateway_comes_out_after_four_delays
    (is_update : pyval) (is_authors : bool) s :
  let run := store_record_inspirehep_api config is_update is_authors s in
  exists j : nat,
    (j <= 4)%nat
    /\ sleeps (snd run)
       = sleeps s ++ take j [full_jitter 1; full_jitter 4; full_jitter 16;
                             full_jitter 64]
    /\ (fst run = Raise BadGatewayError -> j = 4%nat).
Proof.
  intros run. subst run.
  unfold store_record_inspirehep_api, on_exception.
  change (5 - 1)%nat with 4%nat.
  destruct (retry_loop_sleeps (expo 4 1) is_BadGatewayError
              (store_record_inspirehep_api_body config is_update is_authors)
              (fun s0 => proj1 (proj2 (body_effects is_update is_authors s0)))
              4 0 s) as (j & Hj & Hsl & Hlast).
  exists j. split; [exact Hj|]. split.
  - rewrite Hsl. f_equal.
    destruct j as [|[|[|[|[|j]]]]]; try reflexivity. lia.
  - intros Hbad. apply (Hlast BadGatewayError Hbad). reflexivity.
Qed.


(** ** The update under the local strategy *)

Lemma store_record_local (eng : Engine) s :
  rest_enabled config = false ->
  truthy (dict_get (extra_data (obj s)) "is-update") = true ->
  data_type eng = "authors" \/ merger_enabled config = true ->
  store_record config eng s
  = begin_nested
      (bind (lift (getitem (extra_data (obj s)) "head_uuid")) (fun head_uuid =>
       bind (read_db (get_record head_uuid)) (fun record =>
       bind (lift (getitem (json record) "control_number")) (fun cn =>
       bind (setitem_extra_data "recid" cn) (fun _ =>
       bind (lift (getitem (json record) "control_number")) (fun cn =>
       bind (setitem_data "control_number" cn) (fun _ =>
       bind get_obj (fun o =>
       bind (on_db (update (with_json record ∅) (data o) o)) (fun content =>
       bind (on_db (commit (with_json (with_json record ∅) content)))
         (fun _ =>
       bind get_obj (fun o => on_db (save o)))))))))))) s.
Proof.
  unfold rest_enabled, merger_enabled. intros Hrest Hupd Hgate.
  unfold store_record. unfold bind at 1. unfold get_obj at 1.
  rewrite Hrest. simpl. rewrite Hupd.
  assert (negb (String.eqb (data_type eng) "authors")
          && negb (truthy (dict_get_default config
                             "FEATURE_FLAG_ENABLE_MERGER" (PBool false)))
          = false) as ->.
  { destruct Hgate as [-> | ->]; [reflexivity|]. apply andb_false_r. }
  reflexivity.
Qed.

(** X5. An update under the local strategy that passes the merger gate:
    the head record is read by [head_uuid]; its [control_number] is written
    to the extra data's [recid] and over the payload's [control_number]; the
    record is emptied, updated with that payload and committed, and the
    workflow object is saved.  [head_uuid] and every other key stay. *)
Theorem local_update_takes_the_control_number_of_the_head
    (eng : Engine) (head_uuid cn : pyval) (record : InspireRecord)
    (content : gmap string pyval) (d1 d2 d3 : DB) s :
  let o' := {| data := <["control_number" := cn]> (data (obj s));
               extra_data := <["recid" := cn]> (extra_data (obj s));
               log := log (obj s) |} in
  rest_enabled config = false ->
  truthy (dict_get (extra_data (obj s)) "is-update") = true ->
  data_type eng = "authors" \/ merger_enabled config = true ->
  extra_data (obj s) !! "head_uuid" = Some head_uuid ->
  get_record head_uuid (db s) = Ok record ->
  json record !! "control_number" = Some cn ->
  update (with_json record ∅) (data o') o' (db s) = (Ok content, d1) ->
  commit (with_json record content) d1 = (Ok tt, d2) ->
  save o' d2 = (Ok tt, d3) ->
  store_record config eng s
  = (Ok tt,
     {| obj := o'; db := d3; record_sources := record_sources s;
        requests := requests s; sleeps := sleeps s |}).
Proof.
  intros o' Hrest Hupd Hgate Hhead Hrec Hcn Hupdate Hcommit Hsave.
  rewrite store_record_local by assumption.
  run. unfold getitem. rewrite Hhead. simpl. rewrite Hrec. simpl.
  rewrite Hcn. simpl. subst o'. simpl in *. rewrite Hupdate. simpl.
  change (with_json (with_json record ∅) content)
    with (with_json record content).
  rewrite Hcommit. simpl. rewrite Hsave. reflexivity.
Qed.

(** X6. An update under the local strategy that cannot read its head stops
    before it has written anything: without [head_uuid] it raises
    [KeyError]; when [get_record] raises, that exception comes out; when the
    head record has no [control_number] it raises [KeyError].  The state is
    the one of before in each case. *)
Theorem local_update_without_head_changes_nothing (eng : Engine) s :
  rest_enabled config = false ->
  truthy (dict_get (extra_data (obj s)) "is-update") = true ->
  data_type eng = "authors" \/ merger_enabled config = true ->
  (extra_data (obj s) !! "head_uuid" = None ->
   store_record config eng s = (Raise (KeyError "head_uuid"), s))
  /\ (forall head_uuid e,
        extra_data (obj s) !! "head_uuid" = Some head_uuid ->
        get_record head_uuid (db s) = Raise e ->
        store_record config eng s = (Raise e, s))
  /\ (forall head_uuid record,
        extra_data (obj s) !! "head_uuid" = Some head_uuid ->
        get_record head_uuid (db s) = Ok record ->
        json record !! "control_number" = None ->
        store_record config eng s = (Raise (KeyError "control_number"), s)).
Proof.
  intros Hrest Hupd Hgate.
  rewrite store_record_local by assumption.
  assert (set_db (db s) s = s) as Hs by (destruct s; reflexivity).
  split; [|split].
  - intros Hhead. run. unfold getitem. rewrite Hhead. simpl.
    f_equal. exact Hs.
  - intros head_uuid e Hhead Hrec. run. unfold getitem. rewrite Hhead.
    simpl. rewrite Hrec. simpl. f_equal. exact Hs.
  - intros head_uuid record Hhead Hrec Hcn. run. unfold getitem.
    rewrite Hhead. simpl. rewrite Hrec. simpl. rewrite Hcn. simpl.
    f_equal. exact Hs.
Qed.

(** ** Calls that stop before the request, responses that cannot be read *)

(** X7. A replace call needs a usable [head_version_id]: when the extra
    data has no such key the call raises [KeyError], when its value is a
    non-empty string it raises [TypeError]; no request is issued and the
    state is the one of before. *)
Theorem replace_without_usable_head_version_sends_nothing
    (pid_type : string) (control_number : pyval) s :
  truthy control_number = true ->
  (extra_data (obj s) !! "head_version_id" = None ->
   send_record_to_hep pid_type control_number s
   = (Raise (KeyError "head_version_id"), s))
  /\ (forall v : string,
        extra_data (obj s) !! "head_version_id" = Some (PStr v) ->
        v <> "" ->
        send_record_to_hep pid_type control_number s = (Raise TypeError, s)).
Proof.
  intros Hcn. split.
  - intros Hhv. rewrite send_record_to_hep_stamp. run. unfold getitem.
    rewrite Hcn, Hhv. reflexivity.
  - intros v Hhv Hv. rewrite send_record_to_hep_stamp. run. unfold getitem.
    rewrite Hcn, Hhv. simpl.
    apply String.eqb_neq in Hv. rewrite Hv. reflexivity.
Qed.

(** X8. A creation whose response carries [metadata.control_number] but no
    [uuid]: the call raises on the missing [uuid] after it has written
    [control_number] and [recid]; [head_uuid] is not written and the
    workflow object is not saved. *)
Theorem create_without_uuid_stamps_half
    (pid_type : string) (control_number response md cn : pyval) e s :
  truthy control_number = false ->
  hep (length (requests s)) (Post pid_type (data (obj s))) = Ok response ->
  py_getitem response "metadata" = Ok md ->
  py_getitem md "control_number" = Ok cn ->
  py_getitem response "uuid" = Raise e ->
  send_record_to_hep pid_type control_number s
  = (Raise e,
     {| obj := {| data := <["control_number" := cn]> (data (obj s));
                  extra_data := <["recid" := cn]> (extra_data (obj s));
                  log := log (obj s) |};
        db := db s; record_sources := record_sources s;
        requests := requests s ++ [Post pid_type (data (obj s))];
        sleeps := sleeps s |}).
Proof.
  intros Hcn Hhep Hmd Hcn' Huuid.
  rewrite send_create by assumption.
  unfold answered. rewrite Hhep. unfold stamp_response. run.
  rewrite Hmd, Hcn'. simpl. rewrite Hcn. simpl. rewrite Huuid. reflexivity.
Qed.

Lemma py_getitem_raises (v : pyval) (k : string) e :
  py_getitem v k = Raise e -> is_BadGatewayError e = false.
Proof.
  destruct v; simpl; try (intros [= <-]; reflexivity).
  unfold getitem. destruct (_ !! _); intros [= <-]. reflexivity.
Qed.

(** X9. A response from which [metadata.control_number] cannot be read
    ends [store_record_inspirehep_api] after that one request, without
    retry, with the exception of the failed subscript; the workflow object
    and the database are the ones of before. *)
Theorem response_without_control_number_changes_nothing
    (is_update : pyval) (is_authors : bool) (req : Request)
    (response : pyval) e s :
  expected_request config (obj s) is_update is_authors = Some req ->
  hep (length (requests s)) req = Ok response ->
  py_getitem response "metadata" = Raise e
  \/ (exists md, py_getitem response "metadata" = Ok md
                 /\ py_getitem md "control_number" = Raise e) ->
  store_record_inspirehep_api config is_update is_authors s
  = (Raise e, sent req s).
Proof.
  intros Hreq Hhep Hbad.
  apply retry_loop_not_retried.
  - rewrite (body_sends config _ _ req) by assumption.
    unfold answered. rewrite Hhep. unfold stamp_response. run.
    destruct Hbad as [-> | (md & -> & Hcn)]; [reflexivity|].
    simpl. rewrite Hcn. reflexivity.
  - destruct Hbad as [H | (md & _ & H)]; eapply py_getitem_raises, H.
Qed.

(** X10. When the response of the remote service is stamped but saving the
    workflow object raises (an exception other than [BadGatewayError]):
    that exception comes out without retry, the database is rolled back to
    the one of before, the request has been issued, and the workflow object
    keeps the stamped [control_number] and [recid] in memory. *)
Theorem remote_save_failure_keeps_the_stamp
    (is_update : pyval) (is_authors : bool) (req : Request)
    (response md cn u : pyval) e s :
  expected_request config (obj s) is_update is_authors = Some req ->
  hep (length (requests s)) req = Ok response ->
  py_getitem response "metadata" = Ok md ->
  py_getitem md "control_number" = Ok cn ->
  (is_put req = false -> py_getitem response "uuid" = Ok u) ->
  (forall o, fst (save o (db s)) = Raise e) ->
  e <> BadGatewayError ->
  exists s',
    store_record_inspirehep_api config is_update is_authors s = (Raise e, s')
    /\ db s' = db s
    /\ requests s' = requests s ++ [req]
    /\ data (obj s') !! "control_number" = Some cn
    /\ extra_data (obj s') !! "recid" = Some cn.
Proof.
  intros Hreq Hhep Hmd Hcn Hu Hsave He.
  pose proof (expected_request_is_put config _ _ _ _ Hreq) as Hkind.
  assert (exists s',
             store_record_inspirehep_api_body config is_update is_authors s
             = (Raise e, s')
             /\ db s' = db s
             /\ requests s' = requests s ++ [req]
             /\ data (obj s') !! "control_number" = Some cn
             /\ extra_data (obj s') !! "recid" = Some cn)
    as (s' & Hbody & Hrest).
  { rewrite (body_sends config _ _ req) by assumption.
    unfold answered. rewrite Hhep. unfold stamp_response. run.
    rewrite Hmd, Hcn. simpl.
    destruct (truthy (dict_get (data (obj s)) "control_number")) eqn:Ht;
      simpl.
    - match goal with
      | |- context [save ?o (db s)] =>
          specialize (Hsave o); destruct (save o (db s)) as [r d]
      end.
      simpl in Hsave. subst r. eexists. split; [reflexivity|]. simpl.
      repeat split; simplify_map_eq; reflexivity.
    - rewrite Hu by (rewrite Hkind; reflexivity). simpl.
      match goal with
      | |- context [save ?o (db s)] =>
          specialize (Hsave o); destruct (save o (db s)) as [r d]
      end.
      simpl in Hsave. subst r. eexists. split; [reflexivity|]. simpl.
      repeat split; simplify_map_eq; reflexivity. }
  exists s'. split; [|exact Hrest].
  apply retry_loop_not_retried; [exact Hbody|].
  destruct e; try reflexivity. contradiction.
Qed.

(** ** Authors and the merger gate *)

Lemma retry_loop_first_attempt {A} (w : nat -> Z) (retried : exn -> bool)
    (target : M C A) :
  (forall s, requests s `prefix_of` requests (snd (target s))) ->
  forall (k n : nat) s,
    requests (snd (target s))
    `prefix_of` requests (snd (retry_loop w retried k n target s)).
Proof.
  intros Htarget k n s.
  destruct (target s) as [[a|e] s'] eqn:Ht.
  - rewrite (retry_loop_Ok _ _ _ _ _ _ _ _ Ht). reflexivity.
  - destruct (retried e) eqn:He;
      [|rewrite (retry_loop_not_retried _ _ _ _ _ _ _ _ Ht He); reflexivity].
    destruct k as [|k];
      [rewrite (retry_loop_give_up _ _ _ _ _ _ _ Ht); reflexivity|].
    rewrite (retry_loop_again _ _ _ _ _ _ _ _ Ht He). simpl.
    refine (retry_loop_preserves
              (fun a b => requests a `prefix_of` requests b)
              w retried target _ _ Htarget k (S n) (slept (full_jitter (w n)) s')).
    + intros s1 s2 s3 H12 H23. etransitivity; eassumption.
    + intros s0 d. reflexivity.
Qed.

(** X11. The merger gate does not apply to authors: under the remote
    strategy an update workflow of type [authors] with the merger disabled
    is sent, and the first request is a [PUT] on [aut] for the payload's
    [control_number], with the header that the recorded head version [n]
    calls for. *)
Theorem authors_update_is_sent_without_merger
    (eng : Engine) (cn : pyval) (n : Z) s :
  rest_enabled config = true ->
  data_type eng = "authors" ->
  truthy (dict_get (extra_data (obj s)) "is-update") = true ->
  merger_enabled config = false ->
  data (obj s) !! "control_number" = Some cn ->
  truthy cn = true ->
  extra_data (obj s) !! "head_version_id" = Some (PInt n) ->
  requests s
  ++ [Put "aut" cn (data (obj s)) (if n =? 0 then ∅ else if_match n)]
  `prefix_of` requests (snd (store_record config eng s)).
Proof.
  intros Hrest Haut Hupd Hmerger Hcn Htruthy Hhv.
  rewrite store_record_rest by assumption. rewrite Haut. simpl.
  set (req := Put "aut" cn (data (obj s)) (if n =? 0 then ∅ else if_match n)).
  assert (expected_request config (obj s)
            (dict_get (extra_data (obj s)) "is-update") true = Some req)
    as Hreq.
  { assert (dict_contains (data (obj s)) "control_number" = true) as Hc
      by (unfold dict_contains; apply bool_decide_eq_true_2;
          rewrite Hcn; eauto).
    assert (dict_get (data (obj s)) "control_number" = cn) as Hg
      by (unfold dict_get; rewrite Hcn; reflexivity).
    unfold expected_request. rewrite Hc, Hg, Htruthy, Hhv, Hupd.
    reflexivity. }
  pose proof (retry_loop_first_attempt (expo 4 1) is_BadGatewayError
                (store_record_inspirehep_api_body config
                   (dict_get (extra_data (obj s)) "is-update") true)
                (fun s0 => proj2 (proj2 (body_effects _ _ s0)))
                4 0 s) as Hfirst.
  rewrite (body_sends config _ _ req) in Hfirst by assumption.
  rewrite answered_requests in Hfirst. exact Hfirst.
Qed.


(** ** The table of source roots under [store_root] *)

Lemma session_merge_rows_other_key (u l : string)
    (row : WorkflowsRecordSources) (t : list WorkflowsRecordSources) :
  has_key u l row = false ->
  List.filter (has_key u l) (session_merge_rows row t)
  = List.filter (has_key u l) t.
Proof.
  intros Hrow. induction t as [|r t IH]; simpl.
  - rewrite Hrow. reflexivity.
  - destruct (same_key r row) eqn:Hk; simpl.
    + rewrite Hrow.
      rewrite same_key_has_key in Hk. apply has_key_true in Hk.
      destruct (has_key u l r) eqn:Hr; [|reflexivity].
      apply has_key_true in Hr.
      assert (has_key u l row = true) as Hrow'
        by (apply has_key_true; congruence).
      congruence.
    + rewrite IH. reflexivity.
Qed.

Lemma session_merge_rows_idempotent (row : WorkflowsRecordSources)
    (t : list WorkflowsRecordSources) :
  session_merge_rows row (session_merge_rows row t)
  = session_merge_rows row t.
Proof.
  assert (same_key row row = true) as Hrow
    by (rewrite same_key_has_key; apply has_key_true; reflexivity).
  induction t as [|r t IH]; simpl.
  - rewrite Hrow. reflexivity.
  - destruct (same_key r row) eqn:Hk; simpl.
    + rewrite Hrow. reflexivity.
    + rewrite Hk, IH. reflexivity.
Qed.

Lemma session_merge_rows_length (row : WorkflowsRecordSources)
    (t : list WorkflowsRecordSources) :
  (length t <= length (session_merge_rows row t) <= length t + 1)%nat.
Proof.
  induction t as [|r t IH]; simpl; [lia|].
  destruct (same_key r row); simpl; lia.
Qed.

(** The four ways in which [store_root] ends. *)
Lemma store_root_cases s :
  store_root config s = (Ok tt, logged skipping_root_msg s)
  \/ (exists e, store_root config s = (Raise e, s))
  \/ store_root config s = (Ok tt, s)
  \/ (exists root u,
        extra_data (obj s) !! "merger_root" = Some root
        /\ extra_data (obj s) !! "head_uuid" = Some (PStr u)
        /\ store_root config s
           = (Ok tt,
              with_record_sources
                (session_merge_rows (root_row root u) (record_sources s)) s)).
Proof.
  unfold store_root.
  destruct (negb (truthy (dict_get_default config _ _))); [left; reflexivity|].
  right. run. unfold getitem.
  destruct (extra_data (obj s) !! "merger_root") as [root|] eqn:Hroot;
    [|left; eexists; reflexivity].
  simpl.
  destruct (extra_data (obj s) !! "head_uuid") as [hu|] eqn:Hu;
    [|left; eexists; reflexivity].
  simpl.
  destruct (String.eqb (lower (reader_source root)) ""); simpl;
    [right; left; reflexivity|].
  destruct hu; simpl; try (left; eexists; reflexivity).
  right. right. exists root, s0. repeat split; reflexivity.
Qed.

(** X12. [store_root] stores nothing when the merger is disabled (it logs
    the skip and returns) and nothing when the source of the root is empty
    (it returns without a word): the table is the one of before. *)
Theorem store_root_skips_without_merger_or_source s :
  (merger_enabled config = false ->
   store_root config s = (Ok tt, logged skipping_root_msg s))
  /\ (forall root head_uuid,
        merger_enabled config = true ->
        extra_data (obj s) !! "merger_root" = Some root ->
        extra_data (obj s) !! "head_uuid" = Some head_uuid ->
        lower (reader_source root) = "" ->
        store_root config s = (Ok tt, s)).
Proof.
  unfold merger_enabled, store_root. split.
  - intros ->. reflexivity.
  - intros root head_uuid -> Hroot Hu Hsrc. simpl. run. unfold getitem.
    rewrite Hroot, Hu. simpl. rewrite Hsrc. reflexivity.
Qed.

(** X13. With the merger enabled, [store_root] reads [merger_root] and then
    [head_uuid] from the extra data before it looks at the source: a missing
    [merger_root] raises [KeyError] on it, and a missing [head_uuid] raises
    [KeyError] on it whatever the source of the root, be it empty.  The
    state is the one of before. *)
Theorem store_root_without_root_or_head_raises_KeyError s :
  merger_enabled config = true ->
  (extra_data (obj s) !! "merger_root" = None ->
   store_root config s = (Raise (KeyError "merger_root"), s))
  /\ (forall root,
        extra_data (obj s) !! "merger_root" = Some root ->
        extra_data (obj s) !! "head_uuid" = None ->
        store_root config s = (Raise (KeyError "head_uuid"), s)).
Proof.
  unfold merger_enabled, store_root. intros ->. simpl. split.
  - intros Hroot. run. unfold getitem. rewrite Hroot. reflexivity.
  - intros root Hroot Hu. run. unfold getitem. rewrite Hroot. simpl.
    rewrite Hu. reflexivity.
Qed.

(** X14. [store_root] leaves every other key of the table alone: the rows
    under the key [(u, l)] are the ones of before unless the task is run for
    the head [u] and a root whose source has the label [l]. *)
Theorem store_root_leaves_other_keys (u l : string) s :
  (forall root,
     extra_data (obj s) !! "merger_root" = Some root ->
     extra_data (obj s) !! "head_uuid" = Some (PStr u) ->
     get_source_for_root (lower (reader_source root)) <> l) ->
  List.filter (has_key u l) (record_sources (snd (store_root config s)))
  = List.filter (has_key u l) (record_sources s).
Proof.
  intros Hother.
  destruct (store_root_cases s)
    as [-> | [[e ->] | [-> | (root & u' & Hroot & Hu & ->)]]];
    try reflexivity.
  simpl. apply session_merge_rows_other_key.
  destruct (has_key u l (root_row root u')) eqn:Hk; [|reflexivity].
  apply has_key_true in Hk. simpl in Hk. injection Hk as -> Hl.
  exfalso. exact (Hother root Hroot Hu Hl).
Qed.

Lemma store_root_keeps_extra_data s :
  extra_data (obj (snd (store_root config s))) = extra_data (obj s).
Proof.
  destruct (store_root_cases s)
    as [-> | [[e ->] | [-> | (root & u' & Hroot & Hu & ->)]]];
    reflexivity.
Qed.

Lemma store_root_table s :
  record_sources (snd (store_root config s))
  = root_table_after config (extra_data (obj s)) (record_sources s).
Proof.
  unfold root_table_after, merger_enabled, store_root.
  destruct (truthy (dict_get_default config _ _)); simpl; [|reflexivity].
  run. unfold getitem.
  destruct (extra_data (obj s) !! "merger_root") as [root|]; simpl;
    [|reflexivity].
  destruct (extra_data (obj s) !! "head_uuid") as [[| | | u |]|]; simpl;
    destruct (String.eqb (lower (reader_source root)) ""); reflexivity.
Qed.

(** X15. Running [store_root] a second time changes nothing more in the
    table of source roots: the task can be repeated. *)
Theorem store_root_again_changes_nothing s :
  record_sources (snd (store_root config (snd (store_root config s))))
  = record_sources (snd (store_root config s)).
Proof.
  rewrite (store_root_table (snd (store_root config s))).
  rewrite store_root_keeps_extra_data, store_root_table.
  unfold root_table_after.
  destruct (merger_enabled config); [|reflexivity].
  destruct (extra_data (obj s) !! "merger_root") as [root|]; [|reflexivity].
  destruct (extra_data (obj s) !! "head_uuid") as [[| | | u |]|];
    try reflexivity.
  destruct (String.eqb (lower (reader_source root)) ""); [reflexivity|].
  apply session_merge_rows_idempotent.
Qed.

(** X16. [store_root] keeps the keys of the table unique and adds at most
    one row to it, however it ends. *)
Theorem store_root_keeps_keys_unique s :
  let table' := record_sources (snd (store_root config s)) in
  (unique_keys (record_sources s) -> unique_keys table')
  /\ (length (record_sources s) <= length table'
      <= length (record_sources s) + 1)%nat.
Proof.
  intros table'. subst table'.
  destruct (store_root_cases s)
    as [-> | [[e ->] | [-> | (root & u' & Hroot & Hu & ->)]]];
    simpl; try (split; [auto|lia]).
  split; [apply session_merge_rows_unique|apply session_merge_rows_length].
Qed.

(** X17. [store_root] never touches the payload, the extra data, the
    database, the requests or the delays; it only extends the log. *)
Theorem store_root_keeps_the_workflow_object s :
  let s' := snd (store_root config s) in
  same_content (obj s) (obj s')
  /\ log (obj s) `prefix_of` log (obj s')
  /\ db s' = db s /\ requests s' = requests s /\ sleeps s' = sleeps s.
Proof.
  intros s'. subst s'.
  destruct (store_root_cases s)
    as [-> | [[e ->] | [-> | (root & u' & Hroot & Hu & ->)]]];
    simpl; repeat split; try reflexivity.
  apply prefix_app_r. reflexivity.
Qed.

(** ** Staleness, further *)

(** X18. [is_stale_data] is read-only: whatever it answers or raises, the
    state is the one of before. *)
Theorem is_stale_data_changes_nothing (eng : Engine) s :
  snd (is_stale_data eng s) = s.
Proof.
  unfold is_stale_data, _is_stale_data. run.
  unfold log_info_unformatted, ret.
  destruct (negb (truthy _) || is_None _); simpl; [reflexivity|].
  destruct (get_record _ _) as [record|e]; simpl; [|reflexivity].
  destruct (negb (py_eq_int _ _)); simpl; [|reflexivity].
  destruct (format_d _); reflexivity.
Qed.

(** X19. For an update with a recorded head version: when the head record
    cannot be read, [is_stale_data] raises what [get_record] raises; when
    the recorded version is a string, it raises [TypeError] instead of
    answering, whatever the version of the record.  The state is the one of
    before. *)
Theorem is_stale_data_raises_on_missing_head_or_string_version
    (eng : Engine) s :
  let head_version_id := dict_get (extra_data (obj s)) "head_version_id" in
  let head_uuid := dict_get (extra_data (obj s)) "head_uuid" in
  truthy (dict_get (extra_data (obj s)) "is-update") = true ->
  (forall e,
     head_version_id <> PNone ->
     get_record head_uuid (db s) = Raise e ->
     is_stale_data eng s = (Raise e, s))
  /\ (forall (v : string) (record : InspireRecord),
        head_version_id = PStr v ->
        get_record head_uuid (db s) = Ok record ->
        is_stale_data eng s = (Raise TypeError, s)).
Proof.
  intros head_version_id head_uuid Hupd. split.
  - intros e Hhv Hrec. unfold is_stale_data, _is_stale_data. run.
    fold head_version_id head_uuid. rewrite Hupd. simpl.
    destruct head_version_id; try contradiction; simpl;
      rewrite Hrec; reflexivity.
  - intros v record Hhv Hrec. unfold is_stale_data, _is_stale_data. run.
    fold head_version_id head_uuid. rewrite Hupd, Hhv. simpl.
    rewrite Hrec. reflexivity.
Qed.


(** ** Stamping, then storing the root *)

(** X20. Under the remote strategy with the merger enabled, a creation
    followed by [store_root]: the root found in the extra data is filed
    under the [uuid] that the remote service returned, and it is the only
    row under that key. *)
Theorem remote_create_then_store_root_files_under_the_new_uuid
    (eng : Engine) (response md cn root : pyval) (u : string) s :
  let first := store_record config eng s in
  let second := store_root config (snd first) in
  rest_enabled config = true ->
  merger_enabled config = true ->
  data (obj s) !! "control_number" = None ->
  truthy (dict_get (extra_data (obj s)) "is-update") = false ->
  hep (length (requests s))
    (Post (if String.eqb (data_type eng) "authors" then "aut" else "lit")
       (data (obj s)))
  = Ok response ->
  py_getitem response "metadata" = Ok md ->
  py_getitem md "control_number" = Ok cn ->
  py_getitem response "uuid" = Ok (PStr u) ->
  (forall o, fst (save o (db s)) = Ok tt) ->
  extra_data (obj s) !! "merger_root" = Some root ->
  lower (reader_source root) <> "" ->
  unique_keys (record_sources s) ->
  fst first = Ok tt /\ fst second = Ok tt
  /\ List.filter
       (has_key u (get_source_for_root (lower (reader_source root))))
       (record_sources (snd second))
     = [root_row root u].
Proof.
  intros first second Hrest Hmerger Hnone Hnew Hhep Hmd Hcn Hu Hsave Hroot
    Hsrc Huniq.
  subst second first.
  rewrite store_record_rest by assumption.
  set (is_authors := String.eqb (data_type eng) "authors") in *.
  set (req := Post (if is_authors then "aut" else "lit") (data (obj s))) in *.
  assert (dict_get (data (obj s)) "control_number" = PNone) as Hget
    by (unfold dict_get; rewrite Hnone; reflexivity).
  assert (expected_request config (obj s)
            (dict_get (extra_data (obj s)) "is-update") is_authors
          = Some req) as Hreq.
  { unfold expected_request. rewrite Hnew, Hget. reflexivity. }
  destruct (stamp_response_Ok PNone response md cn (PStr u) (sent req s)
              Hmd Hcn (fun _ => Hu) Hsave)
    as (s1 & Hrun & _ & _ & Huuid & _).
  pose proof (stamp_response_writes PNone response (sent req s))
    as ((_ & Hextra) & _).
  pose proof (stamp_response_frame PNone response (sent req s))
    as (_ & _ & Htable).
  rewrite Hrun in Hextra, Htable. simpl in Hextra, Htable.
  assert (store_record_inspirehep_api config
            (dict_get (extra_data (obj s)) "is-update") is_authors s
          = (Ok tt, s1)) as ->.
  { apply retry_loop_Ok. rewrite (body_sends config _ _ _ _ Hreq).
    unfold answered. rewrite Hhep, Hget. exact Hrun. }
  simpl.
  rewrite (store_root_merges config root u s1); try assumption.
  - simpl. split; [reflexivity|]. split; [reflexivity|].
    apply (session_merge_rows_one_row (root_row root u)).
    rewrite Htable. exact Huniq.
  - rewrite Hextra by discriminate. exact Hroot.
  - apply Huuid. reflexivity.
Qed.

End MoreProperties.

(** * The schema of the payload *)

Section Schema.

Context {C : Collaborators}.
Variable ensure_valid_schema : gmap string pyval -> result (gmap string pyval).

Implicit Types (s : State C) (o : WorkflowObject) (e : exn).

(** How [set_schema] ends, by what the resolver makes of the payload. *)
Lemma set_schema_run (obj_data_type : option string) (eng : Engine) s :
  let given := with_default_schema obj_data_type eng (data (obj s)) in
  let run := set_schema ensure_valid_schema obj_data_type eng s in
  let s' := snd run in
  extra_data (obj s') = extra_data (obj s)
  /\ log (obj s) `prefix_of` log (obj s')
  /\ db s' = db s /\ record_sources s' = record_sources s
  /\ requests s' = requests s /\ sleeps s' = sleeps s
  /\ match ensure_valid_schema given with
     | Raise e => fst run = Raise e /\ data (obj s') = given
     | Ok valid =>
         data (obj s') = valid
         /\ fst run = match valid !! "$schema" with
                      | Some _ => Ok tt
                      | None => Raise (KeyError "$schema")
                      end
     end.
Proof.
  intros given run s'. subst given run s'.
  unfold with_default_schema.
  destruct (data (obj s) !! "$schema") as [old|] eqn:Hold.
  - assert (dict_contains (data (obj s)) "$schema" = true) as Hc
      by (unfold dict_contains; apply bool_decide_eq_true_2;
          rewrite Hold; eauto).
    unfold set_schema, bind, get_obj, lift, replace_data, log_debug,
      log_info, set_obj, getitem; simpl.
    rewrite Hc. simpl. rewrite Hold. simpl.
    destruct (ensure_valid_schema (data (obj s))) as [valid|e]; simpl.
    + destruct (valid !! "$schema") as [schema|] eqn:Hs; simpl;
        repeat (rewrite Hs; simpl).
      * destruct (negb (py_eq schema old)); simpl;
          repeat (rewrite Hs; simpl);
          repeat split; try reflexivity;
          repeat apply prefix_app_r; reflexivity.
      * repeat split; try reflexivity. repeat apply prefix_app_r; reflexivity.
    + repeat split; try reflexivity. repeat apply prefix_app_r; reflexivity.
  - assert (dict_contains (data (obj s)) "$schema" = false) as Hc
      by (unfold dict_contains; apply bool_decide_eq_false_2;
          rewrite Hold; intros [? ?]; discriminate).
    unfold set_schema, bind, get_obj, lift, replace_data, log_debug,
      log_info, set_obj, setitem_data, getitem; simpl.
    rewrite Hc. simpl. rewrite lookup_insert_eq. simpl.
    rewrite lookup_insert_eq. simpl.
    destruct (ensure_valid_schema _) as [valid|e]; simpl.
    + destruct (valid !! "$schema") as [schema|] eqn:Hs; simpl;
        repeat (rewrite Hs; simpl).
      * destruct (negb (py_eq schema _)); simpl;
          repeat (rewrite Hs; simpl);
          repeat split; try reflexivity;
          repeat apply prefix_app_r; reflexivity.
      * repeat split; try reflexivity.
        repeat apply prefix_app_r; reflexivity.
    + repeat split; try reflexivity. repeat apply prefix_app_r; reflexivity.
Qed.

(** X21. [set_schema] hands the resolver the payload as it is when it
    declares a schema, and otherwise the payload with the schema named
    after [obj.data_type] (or, when that is empty, after the data type of
    the workflow) followed by [.json]; when the resolver answers with a
    payload that declares a schema, the task returns and that answer is the
    new payload.  Extra data, database and requests are those of before. *)
Theorem set_schema_resolves_the_declared_or_default_schema
    (obj_data_type : option string) (eng : Engine)
    (valid : gmap string pyval) (schema : pyval) s :
  ensure_valid_schema (with_default_schema obj_data_type eng (data (obj s)))
  = Ok valid ->
  valid !! "$schema" = Some schema ->
  exists s',
    set_schema ensure_valid_schema obj_data_type eng s = (Ok tt, s')
    /\ data (obj s') = valid
    /\ extra_data (obj s') = extra_data (obj s)
    /\ db s' = db s /\ requests s' = requests s.
Proof.
  intros Hvalid Hschema.
  destruct (set_schema_run obj_data_type eng s)
    as (Hextra & _ & Hdb & _ & Hreq & _ & Hrun).
  rewrite Hvalid, Hschema in Hrun. destruct Hrun as [Hdata Hfst].
  exists (snd (set_schema ensure_valid_schema obj_data_type eng s)).
  split; [|auto].
  rewrite <- Hfst. apply surjective_pairing.
Qed.

(** X22. When the resolver raises, [set_schema] raises the same exception
    and the payload keeps the default schema that the task had just
    written; when the resolver answers with a payload that declares no
    schema, [set_schema] raises [KeyError] and that answer is the payload. *)
Theorem set_schema_fails_with_the_resolver
    (obj_data_type : option string) (eng : Engine) s :
  let given := with_default_schema obj_data_type eng (data (obj s)) in
  let run := set_schema ensure_valid_schema obj_data_type eng s in
  (forall e,
     ensure_valid_schema given = Raise e ->
     fst run = Raise e /\ data (obj (snd run)) = given)
  /\ (forall valid,
        ensure_valid_schema given = Ok valid ->
        valid !! "$schema" = None ->
        fst run = Raise (KeyError "$schema") /\ data (obj (snd run)) = valid).
Proof.
  intros given run.
  destruct (set_schema_run obj_data_type eng s)
    as (_ & _ & _ & _ & _ & _ & Hrun).
  fold given run in Hrun. split.
  - intros e He. rewrite He in Hrun. exact Hrun.
  - intros valid Hvalid Hnone. rewrite Hvalid, Hnone in Hrun.
    destruct Hrun; auto.
Qed.

(** X23. After [set_schema] has returned, running it again with a resolver
    that keeps the payload it had produced returns and leaves that payload as
    it is. *)
Theorem set_schema_again_keeps_the_payload
    (obj_data_type : option string) (eng : Engine) s s' :
  set_schema ensure_valid_schema obj_data_type eng s = (Ok tt, s') ->
  ensure_valid_schema (data (obj s')) = Ok (data (obj s')) ->
  exists s'',
    set_schema ensure_valid_schema obj_data_type eng s' = (Ok tt, s'')
    /\ data (obj s'') = data (obj s').
Proof.
  intros Hfirst Hfix.
  destruct (set_schema_run obj_data_type eng s)
    as (_ & _ & _ & _ & _ & _ & Hrun).
  rewrite Hfirst in Hrun. simpl in Hrun.
  assert (exists schema, data (obj s') !! "$schema" = Some schema)
    as [schema Hschema].
  { destruct (ensure_valid_schema
                (with_default_schema obj_data_type eng (data (obj s))))
      as [valid|e]; [|destruct Hrun; discriminate].
    destruct Hrun as [-> Hfst].
    destruct (valid !! "$schema") as [schema|]; [eauto|discriminate]. }
  destruct (set_schema_run obj_data_type eng s')
    as (_ & _ & _ & _ & _ & _ & Hrun').
  unfold with_default_schema in Hrun'. rewrite Hschema, Hfix in Hrun'.
  rewrite Hschema in Hrun'. destruct Hrun' as [Hdata Hfst].
  exists (snd (set_schema ensure_valid_schema obj_data_type eng s')).
  split; [|exact Hdata].
  rewrite <- Hfst. apply surjective_pairing.
Qed.

End Schema.

(** * The further properties on the bench *)

Lemma send_record_to_hep_writes_identity_only_witness :
  extra_data
    (obj (snd (send_record_to_hep "lit" (PInt 1234)
                 (Bench.initial [Bench.replaced] Bench.update_obj
                    Bench.store_with_head))))
    !! "head_uuid"
  = extra_data Bench.update_obj !! "head_uuid".
Proof.
  apply (@send_record_to_hep_writes_identity_only
           (Bench.collaborators [Bench.replaced]) "lit" (PInt 1234)
           (Bench.initial [Bench.replaced] Bench.update_obj
              Bench.store_with_head)).
  reflexivity.
Defined.

Lemma store_record_writes_identity_only_witness :
  requests
    (snd (store_record Bench.local_config Bench.literature
            (Bench.initial [] Bench.new_obj Bench.empty_store)))
  = []
  /\ sleeps
       (snd (store_record Bench.local_config Bench.literature
               (Bench.initial [] Bench.new_obj Bench.empty_store)))
     = [].
Proof.
  apply (proj2 (@store_record_writes_identity_only (Bench.collaborators [])
                  Bench.local_config Bench.literature
                  (Bench.initial [] Bench.new_obj Bench.empty_store))).
  reflexivity.
Defined.

Lemma local_store_rolls_back_on_error_witness :
  db (snd (store_record Bench.local_config Bench.literature
             (Bench.initial_refusing_save [] Bench.new_obj
                Bench.empty_store)))
  = Bench.empty_store.
Proof.
  apply (@local_store_rolls_back_on_error
           (Bench.collaborators_refusing_save [])
           Bench.local_config Bench.literature
           (Bench.initial_refusing_save [] Bench.new_obj Bench.empty_store)
           (OtherError "IntegrityError")).
  - reflexivity.
  - reflexivity.
Defined.

Lemma bad_gateway_comes_out_after_four_delays_witness :
  sleeps
    (snd (store_record_inspirehep_api Bench.rest_config (PBool true) false
            (Bench.initial
               [Bench.bad_gateway; Bench.bad_gateway; Bench.bad_gateway;
                Bench.bad_gateway; Bench.bad_gateway; Bench.replaced]
               Bench.update_obj Bench.store_with_head)))
  = [full_jitter 1; full_jitter 4; full_jitter 16; full_jitter 64].
Proof.
  destruct (@bad_gateway_comes_out_after_four_delays
              (Bench.collaborators
                 [Bench.bad_gateway; Bench.bad_gateway; Bench.bad_gateway;
                  Bench.bad_gateway; Bench.bad_gateway; Bench.replaced])
              Bench.rest_config (PBool true) false
              (Bench.initial
                 [Bench.bad_gateway; Bench.bad_gateway; Bench.bad_gateway;
                  Bench.bad_gateway; Bench.bad_gateway; Bench.replaced]
                 Bench.update_obj Bench.store_with_head))
    as (j & _ & Hsleeps & Hlast).
  rewrite Hsleeps, (Hlast eq_refl). reflexivity.
Defined.

Lemma local_update_takes_the_control_number_of_the_head_witness :
  fst (store_record Bench.local_config Bench.literature
         (Bench.initial []
            {| data := {[ "control_number" := PInt 999;
                          "titles" := PStr "A title" ]};
               extra_data := extra_data Bench.update_obj;
               log := [] |}
            Bench.store_with_head))
  = Ok tt
  /\ data
       (obj (snd (store_record Bench.local_config Bench.literature
                    (Bench.initial []
                       {| data := {[ "control_number" := PInt 999;
                                     "titles" := PStr "A title" ]};
                          extra_data := extra_data Bench.update_obj;
                          log := [] |}
                       Bench.store_with_head))))
       !! "control_number"
     = Some (PInt 1234).
Proof.
  rewrite (@local_update_takes_the_control_number_of_the_head
             (Bench.collaborators []) Bench.local_config Bench.literature
             (PStr "head-1") (PInt 1234) Bench.head
             (data Bench.update_obj)
             Bench.store_with_head
             (snd (Bench.bench_commit
                     (with_json Bench.head (data Bench.update_obj))
                     Bench.store_with_head))
             (snd (Bench.bench_save
                     {| data := data Bench.update_obj;
                        extra_data := <["recid" := PInt 1234]>
                                        (extra_data Bench.update_obj);
                        log := [] |}
                     (snd (Bench.bench_commit
                             (with_json Bench.head (data Bench.update_obj))
                             Bench.store_with_head))))
             (Bench.initial []
                {| data := {[ "control_number" := PInt 999;
                              "titles" := PStr "A title" ]};
                   extra_data := extra_data Bench.update_obj;
                   log := [] |}
                Bench.store_with_head)).
  - split; reflexivity.
  - reflexivity.
  - reflexivity.
  - right. reflexivity.
  - reflexivity.
  - reflexivity.
  - reflexivity.
  - reflexivity.
  - reflexivity.
  - reflexivity.
Defined.

Lemma local_update_without_head_changes_nothing_witness :
  store_record Bench.local_config Bench.literature
    (Bench.initial [] Bench.headless_obj Bench.store_with_head)
  = (Raise (KeyError "head_uuid"),
     Bench.initial [] Bench.headless_obj Bench.store_with_head).
Proof.
  apply (@local_update_without_head_changes_nothing (Bench.collaborators [])
           Bench.local_config Bench.literature
           (Bench.initial [] Bench.headless_obj Bench.store_with_head)).
  - reflexivity.
  - reflexivity.
  - right. reflexivity.
  - reflexivity.
Defined.

Lemma replace_without_usable_head_version_sends_nothing_witness :
  send_record_to_hep "lit" (PInt 1234)
    (Bench.initial [Bench.replaced] Bench.headless_obj Bench.store_with_head)
  = (Raise (KeyError "head_version_id"),
     Bench.initial [Bench.replaced] Bench.headless_obj Bench.store_with_head)
  /\ send_record_to_hep "lit" (PInt 1234)
       (Bench.initial [Bench.replaced] (Bench.with_head_version (PStr "3"))
          Bench.store_with_head)
     = (Raise TypeError,
        Bench.initial [Bench.replaced] (Bench.with_head_version (PStr "3"))
          Bench.store_with_head).
Proof.
  split.
  - apply (@replace_without_usable_head_version_sends_nothing
             (Bench.collaborators [Bench.replaced]) "lit" (PInt 1234)
             (Bench.initial [Bench.replaced] Bench.headless_obj
                Bench.store_with_head)).
    + reflexivity.
    + reflexivity.
  - apply (proj2 (@replace_without_usable_head_version_sends_nothing
                    (Bench.collaborators [Bench.replaced]) "lit" (PInt 1234)
                    (Bench.initial [Bench.replaced]
                       (Bench.with_head_version (PStr "3"))
                       Bench.store_with_head)
                    eq_refl)
             "3").
    + reflexivity.
    + discriminate.
Defined.

Lemma create_without_uuid_stamps_half_witness :
  fst (send_record_to_hep "lit" PNone
         (Bench.initial [Ok Bench.created_without_uuid] Bench.new_obj
            Bench.empty_store))
  = Raise (KeyError "uuid")
  /\ data
       (obj (snd (send_record_to_hep "lit" PNone
                    (Bench.initial [Ok Bench.created_without_uuid]
                       Bench.new_obj Bench.empty_store))))
       !! "control_number"
     = Some (PInt 77).
Proof.
  rewrite (@create_without_uuid_stamps_half
             (Bench.collaborators [Ok Bench.created_without_uuid])
             "lit" PNone Bench.created_without_uuid
             (PDict {[ "control_number" := PInt 77 ]}) (PInt 77)
             (KeyError "uuid")
             (Bench.initial [Ok Bench.created_without_uuid] Bench.new_obj
                Bench.empty_store)).
  - split; reflexivity.
  - reflexivity.
  - reflexivity.
  - reflexivity.
  - reflexivity.
  - reflexivity.
Defined.

Lemma response_without_control_number_changes_nothing_witness :
  store_record_inspirehep_api Bench.rest_config (PBool true) false
    (Bench.initial [Ok (PDict ∅); Bench.replaced] Bench.update_obj
       Bench.store_with_head)
  = (Raise (KeyError "metadata"),
     sent Bench.replace_request
       (Bench.initial [Ok (PDict ∅); Bench.replaced] Bench.update_obj
          Bench.store_with_head)).
Proof.
  apply (@response_without_control_number_changes_nothing
           (Bench.collaborators [Ok (PDict ∅); Bench.replaced])
           Bench.rest_config (PBool true) false Bench.replace_request
           (PDict ∅)).
  - reflexivity.
  - reflexivity.
  - left. reflexivity.
Defined.

Lemma remote_save_failure_keeps_the_stamp_witness :
  exists s',
    store_record_inspirehep_api Bench.rest_config (PBool false) false
      (Bench.initial_refusing_save [Bench.created] Bench.new_obj
         Bench.empty_store)
    = (Raise (OtherError "IntegrityError"), s')
    /\ db s' = Bench.empty_store
    /\ requests s' = [] ++ [Post "lit" (data Bench.new_obj)]
    /\ data (obj s') !! "control_number" = Some (PInt 77)
    /\ extra_data (obj s') !! "recid" = Some (PInt 77).
Proof.
  apply (@remote_save_failure_keeps_the_stamp
           (Bench.collaborators_refusing_save [Bench.created])
           Bench.rest_config (PBool false) false
           (Post "lit" (data Bench.new_obj)) Bench.created_body
           (PDict {[ "control_number" := PInt 77 ]}) (PInt 77)
           (PStr "new-uuid") (OtherError "IntegrityError")
           (Bench.initial_refusing_save [Bench.created] Bench.new_obj
              Bench.empty_store)).
  - reflexivity.
  - reflexivity.
  - reflexivity.
  - reflexivity.
  - intros _. reflexivity.
  - intros o. reflexivity.
  - discriminate.
Defined.

Lemma authors_update_is_sent_without_merger_witness :
  [] ++ [Put "aut" (PInt 1234) (data Bench.update_obj)
           (if 3 =? 0 then ∅ else if_match 3)]
  `prefix_of`
  requests
    (snd (store_record Bench.rest_config_without_merger Bench.authors
            (Bench.initial [Bench.replaced] Bench.update_obj
               Bench.store_with_head))).
Proof.
  apply (@authors_update_is_sent_without_merger
           (Bench.collaborators [Bench.replaced])
           Bench.rest_config_without_merger Bench.authors (PInt 1234) 3
           (Bench.initial [Bench.replaced] Bench.update_obj
              Bench.store_with_head)).
  - reflexivity.
  - reflexivity.
  - reflexivity.
  - reflexivity.
  - reflexivity.
  - reflexivity.
  - reflexivity.
Defined.

Lemma store_root_skips_without_merger_or_source_witness :
  store_root Bench.local_config_without_merger
    (Bench.with_stored_roots (Bench.with_root (Bench.root_of "First"))
       Bench.store_with_head)
  = (Ok tt,
     logged skipping_root_msg
       (Bench.with_stored_roots (Bench.with_root (Bench.root_of "First"))
          Bench.store_with_head))
  /\ store_root Bench.local_config
       (Bench.with_stored_roots (Bench.with_root Bench.root_without_source)
          Bench.store_with_head)
     = (Ok tt,
        Bench.with_stored_roots (Bench.with_root Bench.root_without_source)
          Bench.store_with_head).
Proof.
  split.
  - apply (@store_root_skips_without_merger_or_source
             (Bench.collaborators []) Bench.local_config_without_merger).
    reflexivity.
  - apply (proj2 (@store_root_skips_without_merger_or_source
                    (Bench.collaborators []) Bench.local_config
                    (Bench.with_stored_roots
                       (Bench.with_root Bench.root_without_source)
                       Bench.store_with_head))
             Bench.root_without_source (PStr "head-1")).
    + reflexivity.
    + reflexivity.
    + reflexivity.
    + reflexivity.
Defined.

Lemma store_root_without_root_or_head_raises_KeyError_witness :
  store_root Bench.local_config
    (Bench.with_stored_roots Bench.headless_obj Bench.store_with_head)
  = (Raise (KeyError "merger_root"),
     Bench.with_stored_roots Bench.headless_obj Bench.store_with_head)
  /\ store_root Bench.local_config
       (Bench.with_stored_roots Bench.rootful_headless_obj
          Bench.store_with_head)
     = (Raise (KeyError "head_uuid"),
        Bench.with_stored_roots Bench.rootful_headless_obj
          Bench.store_with_head).
Proof.
  split.
  - apply (@store_root_without_root_or_head_raises_KeyError
             (Bench.collaborators []) Bench.local_config).
    + reflexivity.
    + reflexivity.
  - apply (proj2 (@store_root_without_root_or_head_raises_KeyError
                    (Bench.collaborators []) Bench.local_config
                    (Bench.with_stored_roots Bench.rootful_headless_obj
                       Bench.store_with_head)
                    eq_refl)
             (Bench.root_of "First")).
    + reflexivity.
    + reflexivity.
Defined.

Lemma store_root_leaves_other_keys_witness :
  List.filter (has_key "head-1" "arxiv")
    (record_sources
       (snd (store_root Bench.local_config
               (Bench.with_stored_roots
                  (Bench.with_root (Bench.root_of "First"))
                  Bench.store_with_head))))
  = List.filter (has_key "head-1" "arxiv") Bench.stored_roots.
Proof.
  apply (@store_root_leaves_other_keys (Bench.collaborators [])
           Bench.local_config "head-1" "arxiv"
           (Bench.with_stored_roots (Bench.with_root (Bench.root_of "First"))
              Bench.store_with_head)).
  intros root Hroot _. vm_compute in Hroot. injection Hroot as <-.
  vm_compute. discriminate.
Defined.

Lemma store_root_keeps_keys_unique_witness :
  unique_keys
    (record_sources
       (snd (store_root Bench.local_config
               (Bench.with_stored_roots
                  (Bench.with_root (Bench.root_of "First"))
                  Bench.store_with_head)))).
Proof.
  apply (proj1 (@store_root_keeps_keys_unique (Bench.collaborators [])
                  Bench.local_config
                  (Bench.with_stored_roots
                     (Bench.with_root (Bench.root_of "First"))
                     Bench.store_with_head))).
  apply (bool_decide_unpack _). vm_compute. exact I.
Defined.

Lemma is_stale_data_raises_on_missing_head_or_string_version_witness :
  is_stale_data Bench.literature
    (Bench.initial [] Bench.update_obj Bench.empty_store)
  = (Raise (OtherError "NoResultFound"),
     Bench.initial [] Bench.update_obj Bench.empty_store)
  /\ is_stale_data Bench.literature
       (Bench.initial [] (Bench.with_head_version (PStr "4"))
          Bench.store_with_head)
     = (Raise TypeError,
        Bench.initial [] (Bench.with_head_version (PStr "4"))
          Bench.store_with_head).
Proof.
  split.
  - apply (@is_stale_data_raises_on_missing_head_or_string_version
             (Bench.collaborators []) Bench.literature
             (Bench.initial [] Bench.update_obj Bench.empty_store)).
    + reflexivity.
    + discriminate.
    + reflexivity.
  - apply (proj2 (@is_stale_data_raises_on_missing_head_or_string_version
                    (Bench.collaborators []) Bench.literature
                    (Bench.initial [] (Bench.with_head_version (PStr "4"))
                       Bench.store_with_head)
                    eq_refl)
             "4" Bench.head).
    + reflexivity.
    + reflexivity.
Defined.

Lemma remote_create_then_store_root_files_under_the_new_uuid_witness :
  List.filter (has_key "new-uuid" "publisher")
    (record_sources
       (snd (store_root Bench.rest_config
               (snd (store_record Bench.rest_config Bench.literature
                       (Bench.initial [Bench.created] Bench.new_obj_with_root
                          Bench.empty_store))))))
  = [{| source := "publisher"; record_uuid := "new-uuid";
        root_json := Bench.root_of "First" |}].
Proof.
  apply (@remote_create_then_store_root_files_under_the_new_uuid
           (Bench.collaborators [Bench.created]) Bench.rest_config
           Bench.literature Bench.created_body
           (PDict {[ "control_number" := PInt 77 ]}) (PInt 77)
           (Bench.root_of "First") "new-uuid"
           (Bench.initial [Bench.created] Bench.new_obj_with_root
              Bench.empty_store)).
  - reflexivity.
  - reflexivity.
  - reflexivity.
  - reflexivity.
  - reflexivity.
  - reflexivity.
  - reflexivity.
  - reflexivity.
  - intros o. reflexivity.
  - reflexivity.
  - vm_compute. discriminate.
  - apply NoDup_nil_2.
Defined.

Lemma set_schema_resolves_the_declared_or_default_schema_witness :
  exists s',
    set_schema Bench.bench_ensure_valid_schema None Bench.literature
      (Bench.initial [] Bench.new_obj Bench.empty_store)
    = (Ok tt, s')
    /\ data (obj s')
       = <["$schema" := PStr (Bench.schema_url +:+ "hep.json")]>
           (<["$schema" := PStr "hep.json"]> (data Bench.new_obj))
    /\ extra_data (obj s') = extra_data Bench.new_obj
    /\ db s' = Bench.empty_store /\ requests s' = [].
Proof.
  apply (@set_schema_resolves_the_declared_or_default_schema
           (Bench.collaborators []) Bench.bench_ensure_valid_schema None
           Bench.literature
           (<["$schema" := PStr (Bench.schema_url +:+ "hep.json")]>
              (<["$schema" := PStr "hep.json"]> (data Bench.new_obj)))
           (PStr (Bench.schema_url +:+ "hep.json"))
           (Bench.initial [] Bench.new_obj Bench.empty_store)).
  - reflexivity.
  - reflexivity.
Defined.

Lemma set_schema_fails_with_the_resolver_witness :
  fst (set_schema Bench.bench_ensure_valid_schema None Bench.conferences
         (Bench.initial [] Bench.new_obj Bench.empty_store))
  = Raise (OtherError "SchemaNotFound")
  /\ data
       (obj (snd (set_schema Bench.bench_ensure_valid_schema None
                    Bench.conferences
                    (Bench.initial [] Bench.new_obj Bench.empty_store))))
     = with_default_schema None Bench.conferences (data Bench.new_obj).
Proof.
  apply (proj1 (@set_schema_fails_with_the_resolver (Bench.collaborators [])
                  Bench.bench_ensure_valid_schema None Bench.conferences
                  (Bench.initial [] Bench.new_obj Bench.empty_store))).
  reflexivity.
Defined.

Lemma set_schema_again_keeps_the_payload_witness :
  exists s'',
    set_schema Bench.bench_ensure_valid_schema None Bench.literature
      (snd (set_schema Bench.bench_ensure_valid_schema None Bench.literature
              (Bench.initial [] Bench.new_obj Bench.empty_store)))
    = (Ok tt, s'')
    /\ data (obj s'')
       = data
           (obj (snd (set_schema Bench.bench_ensure_valid_schema None
                        Bench.literature
                        (Bench.initial [] Bench.new_obj
                           Bench.empty_store)))).
Proof.
  apply (@set_schema_again_keeps_the_payload (Bench.collaborators [])
           Bench.bench_ensure_valid_schema None Bench.literature
           (Bench.initial [] Bench.new_obj Bench.empty_store)).
  - reflexivity.
  - reflexivity.
Defined.
